(** * User authentication and employee records: the request handlers

    A shallow embedding of the Express handlers of the service: the two
    user controllers (signup, login), the two employee controllers
    (list, create, read, update, delete, search), the two employee routers
    and the server entry point that registers [GET /test].

    A handler is a function from a request and the database to a response
    and the database after it.  One request is handled at a time: the
    suspension points of the [async] handlers are not interleaved.

    The Mongoose models are represented by their schema (paths, declared
    type, [required], [unique], [default]) over two collections of
    documents keyed by ObjectId.  What the model layer does here: the
    strict mode of the constructor and of updates (fields outside the
    schema are dropped), the [required] validators run by [save], the
    unique indexes, and the cast of an identifier string to an ObjectId.
    Values are stored as given: the cast of a field value to the declared
    type of its path is not represented, and numbers are integers.

    A request body is a flat object: each of its fields holds a scalar.  A
    body with an object or an array in a field is not represented, and so
    no query operator and no update operator with an object for its
    argument; an update operator with a scalar for its argument is.  A
    query string gives a key at most one text.

    A path is the list of its segments, none of them empty and none with
    a percent escape: a trailing slash adds no segment.  The routers
    compare the fixed segments of a route without regard to case, as
    [express.Router()] does. *)

From stdpp Require Import base option list strings gmap fin_maps.
From Stdlib Require Import ZArith NArith Ascii String.

Local Open Scope Z_scope.
Local Open Scope string_scope.

(** ** JavaScript values and objects *)

Inductive value : Type :=
  | VUndefined
  | VNull
  | VBool (b : bool)
  | VNum (n : Z)
  | VStr (s : string)
  | VDate (t : Z)
  | VId (o : N).

#[global] Instance value_eq_dec : EqDecision value.
Proof. solve_decision. Defined.

(** [!v] is [negb (truthy v)]. *)
Definition truthy (v : value) : bool :=
  match v with
  | VUndefined | VNull => false
  | VBool b => b
  | VNum n => negb (Z.eqb n 0)
  | VStr s => negb (String.eqb s "")
  | VDate _ | VId _ => true
  end.

(** An object literal, a request body, the fields of a document. *)
Abbreviation object := (gmap string value).

(** [o.k]: reading a property that the object does not have gives
    [undefined]. *)
Definition prop (o : object) (k : string) : value :=
  default VUndefined (o !! k).

(** [o.k] for the string-valued maps [req.params] and [req.query]. *)
Definition param (o : gmap string string) (k : string) : value :=
  match o !! k with
  | Some s => VStr s
  | None => VUndefined
  end.

(** ** ObjectId *)

Definition hexDigit (c : ascii) : option N :=
  let n := N_of_ascii c in
  if (48 <=? n)%N && (n <=? 57)%N then Some (n - 48)%N
  else if (97 <=? n)%N && (n <=? 102)%N then Some (n - 87)%N
  else if (65 <=? n)%N && (n <=? 70)%N then Some (n - 55)%N
  else None.

Fixpoint parseHex (acc : N) (s : string) : option N :=
  match s with
  | EmptyString => Some acc
  | String c s' =>
      match hexDigit c with
      | Some d => parseHex (16 * acc + d)%N s'
      | None => None
      end
  end.

(** A string of 24 hexadecimal digits is an ObjectId. *)
Definition parseObjectId (s : string) : option N :=
  if Nat.eqb (String.length s) 24 then parseHex 0%N s else None.

(** ** Requests, responses, the environment of a request *)

Record upload := { filename : string }.

Record request := {
  body : object;
  params : gmap string string;
  query : gmap string string;
  file : option upload;            (* req.file, set by upload.single *)
  validationErrors : list string   (* validationResult(req).array() *)
}.

(** A document as returned to the client: its [_id] and its fields. *)
Definition document : Type := N * object.

Inductive json : Type :=
  | Obj (fields : list (string * value))
  | ObjErrors (errors : list string)   (* { status: false, errors: [...] } *)
  | Doc (d : document)
  | Docs (ds : list document).

Record response := { status : Z; payload : json }.

(** What a handler takes from outside the request: the clock, the
    ObjectId given to a new document, the salt drawn by [bcrypt.hash] and
    [process.env.JWT_SECRET]. *)
Record env := {
  now : Z;
  newId : N;
  salt : string;
  JWT_SECRET : option string
}.

(** ** The database *)

Record db := {
  users : gmap N object;
  employees : gmap N object
}.

Inductive stype := SString | SNumber | SDate.

Record path := {
  pname : string;
  ptype : stype;
  prequired : bool;
  punique : bool;
  pdefaultNow : bool
}.

Record model := {
  modelName : string;
  schema : list path;
  collection : db → gmap N object;
  withCollection : gmap N object → db → db
}.

Definition hasPath (M : model) (k : string) : bool :=
  existsb (λ p, String.eqb (pname p) k) (schema M).

(** ** Handlers: early replies and exceptions *)

Inductive error : Type :=
  | CastError (modelName : string) (v : value)
  | ValidationError (modelName : string) (pathName : string)
  | DuplicateKey (modelName : string) (pathName : string)
  | InvalidRegex (pattern : string)
  | InvalidUpdate (op : string)
  | IllegalArguments
  | SecretMissing.

(** [error.message], with the texts shortened. *)
Definition message (e : error) : string :=
  match e with
  | CastError m _ => "Cast to ObjectId failed at path _id for model " +:+ m
  | ValidationError m p => m +:+ " validation failed: " +:+ p
  | DuplicateKey m p => "E11000 duplicate key error: " +:+ m +:+ "." +:+ p
  | InvalidRegex p => "Regular expression is invalid: " +:+ p
  | InvalidUpdate op => "Invalid atomic update value for " +:+ op
  | IllegalArguments => "Illegal arguments"
  | SecretMissing => "secretOrPrivateKey must have a value"
  end.

Inductive outcome (A : Type) : Type :=
  | Next (a : A) (d : db)
  | Replied (r : response) (d : db)
  | Thrown (e : error) (d : db).
Arguments Next {A} a d.
Arguments Replied {A} r d.
Arguments Thrown {A} e d.

Definition handler (A : Type) : Type := db → outcome A.

#[global] Instance handler_ret : MRet handler := λ A a d, Next a d.

#[global] Instance handler_bind : MBind handler := λ A B f m d,
  match m d with
  | Next a d' => f a d'
  | Replied r d' => Replied r d'
  | Thrown e d' => Thrown e d'
  end.

(** [return res.status(code).json(j)], also as the last statement. *)
Definition reply {A} (code : Z) (j : json) : handler A :=
  λ d, Replied {| status := code; payload := j |} d.

Definition throw {A} (e : error) : handler A := λ d, Thrown e d.

(** A step that reads or writes the database. *)
Definition access {A} (f : db → outcome A) : handler A := f.

(** [if (c) return res...;] *)
Definition when (c : bool) (h : handler ()) : handler () :=
  if c then h else mret ().

(** [try { body } catch (error) { res.status(500).json(onError error) }];
    a body ends by replying or by throwing. *)
Definition tryCatch (h : handler Empty_set) (onError : error → json)
    (d : db) : response * db :=
  match h d with
  | Next a _ => match a with end
  | Replied r d' => (r, d')
  | Thrown e d' => ({| status := 500; payload := onError e |}, d')
  end.

(** ** The model layer *)

Definition isNullish (v : value) : bool :=
  match v with VUndefined | VNull => true | _ => false end.

(** The key of a document in an index on [k], and the value an equality
    filter on [k] compares with: a missing field counts as [null]. *)
Definition fieldKey (o : object) (k : string) : value :=
  match o !! k with
  | None | Some VUndefined => VNull
  | Some v => v
  end.

Definition filterValue (v : value) : value :=
  if isNullish v then VNull else v.

(** The documents of a collection that a filter selects, the filter given
    as a predicate on the fields, and the first of them. *)
Definition select (P : object → bool) (c : gmap N object) : list document :=
  filter (λ kv : document, P kv.2 = true) (map_to_list c).

Definition selectOne (k : string) (v : value) (c : gmap N object)
    : option document :=
  head (select (λ o, bool_decide (fieldKey o k = filterValue v)) c).

(** A key of an update that starts with [$] names an update operator, and
    the argument of an operator must be an object.  The fields of an update
    are scalars here, so the cast of the update throws on an operator key;
    the one exception is a falsy [$set], which the cast replaces by the
    fields of the update that are not operators. *)
Definition isOperator (k : string) : bool :=
  match k with
  | String c _ => Ascii.eqb c "$"
  | EmptyString => false
  end.

Definition badOperator (kv : string * value) : bool :=
  isOperator kv.1 && negb (String.eqb kv.1 "$set" && negb (truthy kv.2)).

Definition firstBadOperator (update : object) : option string :=
  fst <$> List.find badOperator (map_to_list update).

Section Model.
Variable M : model.

(** Strict mode: what a constructor or an update keeps of an object. *)
Definition strict (o : object) : object :=
  filter (λ kv, hasPath M kv.1 = true ∧ kv.2 ≠ VUndefined) o.

Definition applyDefaults (t : Z) (o : object) : object :=
  foldr (λ p acc,
           if pdefaultNow p && bool_decide (acc !! pname p = None)
           then <[pname p := VDate t]> acc else acc)
        o (schema M).

(** [new M(o)] *)
Definition construct (e : env) (o : object) : document :=
  (newId e, applyDefaults (now e) (strict o)).

Definition requiredOk (p : path) (o : object) : bool :=
  negb (prequired p) ||
  match prop o (pname p), ptype p with
  | VUndefined, _ | VNull, _ => false
  | VStr s, SString => negb (String.eqb s "")
  | _, _ => true
  end.

Definition firstInvalid (o : object) : option path :=
  List.find (λ p, negb (requiredOk p o)) (schema M).

(** Some other document holds the same key in the unique index on [k]. *)
Definition keyTaken (c : gmap N object) (self : N) (k : string) (o : object)
    : Prop :=
  map_Exists (λ i d, i ≠ self ∧ fieldKey d k = fieldKey o k) c.

#[global] Instance keyTaken_dec c self k o : Decision (keyTaken c self k o).
Proof. unfold keyTaken. apply _. Defined.

Definition firstDuplicate (c : gmap N object) (self : N) (o : object)
    : option path :=
  List.find (λ p, punique p && bool_decide (keyTaken c self (pname p) o))
            (schema M).

(** [doc.save()] of a new document. *)
Definition save (doc : document) : handler () := λ d,
  let c := collection M d in
  match firstInvalid doc.2 with
  | Some p => Thrown (ValidationError (modelName M) (pname p)) d
  | None =>
      if bool_decide (is_Some (c !! doc.1))
      then Thrown (DuplicateKey (modelName M) "_id") d
      else match firstDuplicate c doc.1 doc.2 with
           | Some p => Thrown (DuplicateKey (modelName M) (pname p)) d
           | None => Next () (withCollection M (<[doc.1 := doc.2]> c) d)
           end
  end.

(** [M.find(filter)] *)
Definition find (P : object → bool) : handler (list document) :=
  access (λ d, Next (select P (collection M d)) d).

(** [M.findOne({ k: v })] *)
Definition findOne (k : string) (v : value) : handler (option document) :=
  access (λ d, Next (selectOne k v (collection M d)) d).

(** The cast of the argument of a by-id operation. *)
Definition castId (id : value) : handler (option N) :=
  match id with
  | VUndefined | VNull => mret None
  | VId o => mret (Some o)
  | VStr s =>
      match parseObjectId s with
      | Some o => mret (Some o)
      | None => throw (CastError (modelName M) id)
      end
  | _ => throw (CastError (modelName M) id)
  end.

(** [M.findById(id)] *)
Definition findById (id : value) : handler (option document) :=
  oid ← castId id;
  access (λ d,
    match oid with
    | None => Next None d
    | Some o => Next (pair o <$> collection M d !! o) d
    end).

(** [M.findByIdAndDelete(id)] *)
Definition findByIdAndDelete (id : value) : handler (option document) :=
  oid ← castId id;
  access (λ d,
    match oid with
    | None => Next None d
    | Some o =>
        match collection M d !! o with
        | None => Next None d
        | Some f =>
            Next (Some (o, f))
                 (withCollection M (delete o (collection M d)) d)
        end
    end).

(** [M.findByIdAndUpdate(id, update, { new: true })]: the identifier and
    then the update are cast; the fields of the update that the schema has
    are set on the document, the others are kept; validators are not run,
    the unique indexes are enforced. *)
Definition findByIdAndUpdate (id : value) (update : object)
    : handler (option document) :=
  oid ← castId id;
  match firstBadOperator update with
  | Some op => throw (InvalidUpdate op)
  | None =>
      access (λ d,
        match oid with
        | None => Next None d
        | Some o =>
            let c := collection M d in
            match c !! o with
            | None => Next None d
            | Some f =>
                let f' := strict update ∪ f in
                match firstDuplicate c o f' with
                | Some p => Thrown (DuplicateKey (modelName M) (pname p)) d
                | None =>
                    Next (Some (o, f')) (withCollection M (<[o := f']> c) d)
                end
            end
        end)
  end.
End Model.

(** ** The schemas (models/User.js, models/Employee.js) *)

Definition required (k : string) (t : stype) : path :=
  {| pname := k; ptype := t; prequired := true; punique := false;
     pdefaultNow := false |}.

Definition requiredUnique (k : string) (t : stype) : path :=
  {| pname := k; ptype := t; prequired := true; punique := true;
     pdefaultNow := false |}.

Definition optional (k : string) (t : stype) : path :=
  {| pname := k; ptype := t; prequired := false; punique := false;
     pdefaultNow := false |}.

Definition defaultNow (k : string) : path :=
  {| pname := k; ptype := SDate; prequired := false; punique := false;
     pdefaultNow := true |}.

Definition userSchema : list path :=
  [ required "username" SString;
    requiredUnique "email" SString;
    required "password" SString;
    defaultNow "created_at";
    defaultNow "updated_at" ].

Definition employeeSchema : list path :=
  [ required "first_name" SString;
    required "last_name" SString;
    requiredUnique "email" SString;
    required "position" SString;
    required "salary" SNumber;
    required "date_of_joining" SDate;
    required "department" SString;
    defaultNow "created_at";
    defaultNow "updated_at" ].

Definition User : model :=
  {| modelName := "User";
     schema := userSchema;
     collection := users;
     withCollection := λ c d, {| users := c; employees := employees d |} |}.

Definition Employee : model :=
  {| modelName := "Employee";
     schema := employeeSchema;
     collection := employees;
     withCollection := λ c d, {| users := users d; employees := c |} |}.

(** ** bcryptjs and jsonwebtoken *)

Class Crypto := {
  (* bcrypt.hash(s, rounds), the salt it draws made explicit *)
  bcrypt_hash : string → Z → string → string;
  (* bcrypt.compare(s, hash) *)
  bcrypt_compare : string → string → bool;
  (* jwt.sign({ id }, secret, { expiresIn }), issued at a given time *)
  jwt_sign : value → string → Z → Z → string;
  (* a bcrypt hash is 60 characters long *)
  bcrypt_hash_length : ∀ s rounds salt,
    String.length (bcrypt_hash s rounds salt) = 60%nat
}.

Section Controllers.
Context {crypto : Crypto}.

(** Both functions reject an argument that is not a string. *)
Definition bcryptHash (e : env) (s : value) (rounds : Z) : handler string :=
  match s with
  | VStr p => mret (bcrypt_hash p rounds (salt e))
  | _ => throw IllegalArguments
  end.

Definition bcryptCompare (s hash : value) : handler bool :=
  match s, hash with
  | VStr p, VStr h => mret (bcrypt_compare p h)
  | _, _ => throw IllegalArguments
  end.

(** [jwt.sign] throws when the secret is missing or empty. *)
Definition jwtSign (e : env) (id : value) (expiresIn : Z) : handler string :=
  match JWT_SECRET e with
  | Some secret =>
      if String.eqb secret "" then throw SecretMissing
      else mret (jwt_sign id secret (now e) expiresIn)
  | None => throw SecretMissing
  end.
End Controllers.

Definition isSome {A} (o : option A) : bool :=
  match o with Some _ => true | None => false end.

Definition isEmpty {A} (l : list A) : bool :=
  match l with [] => true | _ => false end.

(** The argument of [new User(...)] in [signup]. *)
Definition newUserFields (e : env) (username email : value)
    (hashedPassword : string) : object :=
  list_to_map
    [("username", username);
     ("email", email);
     ("password", VStr hashedPassword);
     ("created_at", VDate (now e));
     ("updated_at", VDate (now e))].

(** ** controllers/userController.js, with express-validator *)

Module UserController.
Section UserController.
Context {crypto : Crypto}.

Definition failure (msg : string) : json :=
  Obj [("status", VBool false); ("message", VStr msg)].

Definition signup (e : env) (req : request) : db → response * db :=
  tryCatch
    (when (negb (isEmpty (validationErrors req)))
          (reply 400 (ObjErrors (validationErrors req)));;
     let username := prop (body req) "username" in
     let email := prop (body req) "email" in
     let password := prop (body req) "password" in
     existingUser ← findOne User "email" email;
     when (isSome existingUser)
          (reply 400 (failure "Email already exists"));;
     hashedPassword ← bcryptHash e password 10;
     let newUser :=
       construct User e (newUserFields e username email hashedPassword) in
     save User newUser;;
     reply 201 (Obj [("message", VStr "User created successfully.");
                     ("user_id", VId newUser.1)]))
    (λ err, failure (message err)).

Definition login (e : env) (req : request) : db → response * db :=
  tryCatch
    (when (negb (isEmpty (validationErrors req)))
          (reply 400 (ObjErrors (validationErrors req)));;
     let email := prop (body req) "email" in
     let password := prop (body req) "password" in
     user ← findOne User "email" email;
     match user with
     | None => reply 400 (failure "Invalid username or password")
     | Some user =>
         isPasswordValid ← bcryptCompare password (prop user.2 "password");
         when (negb isPasswordValid)
              (reply 400 (failure "Invalid username or password"));;
         token ← jwtSign e (VId user.1) 3600;
         reply 200 (Obj [("message", VStr "Login successful.");
                         ("jwt_token", VStr token)])
     end)
    (λ err, failure (message err)).
End UserController.
End UserController.

(** ** The user controller without express-validator *)

Module UserControllerDoc.
Section UserControllerDoc.
Context {crypto : Crypto}.

Definition signup (e : env) (req : request) : db → response * db :=
  tryCatch
    (let username := prop (body req) "username" in
     let email := prop (body req) "email" in
     let password := prop (body req) "password" in
     existingUser ← findOne User "email" email;
     when (isSome existingUser)
          (reply 400 (Obj [("message", VStr "Email already exists")]));;
     hashedPassword ← bcryptHash e password 10;
     let newUser :=
       construct User e (newUserFields e username email hashedPassword) in
     save User newUser;;
     reply 201 (Obj [("message", VStr "User created successfully.");
                     ("user_id", VId newUser.1)]))
    (λ err, Obj [("message", VStr (message err))]).

Definition login (e : env) (req : request) : db → response * db :=
  tryCatch
    (let email := prop (body req) "email" in
     let password := prop (body req) "password" in
     user ← findOne User "email" email;
     match user with
     | None =>
         reply 400 (Obj [("status", VBool false);
                         ("message", VStr "Invalid username or password")])
     | Some user =>
         isPasswordValid ← bcryptCompare password (prop user.2 "password");
         when (negb isPasswordValid)
              (reply 400 (Obj [("status", VBool false);
                               ("message",
                                VStr "Invalid username or password")]));;
         token ← jwtSign e (VId user.1) 3600;
         reply 200 (Obj [("message", VStr "Login successful.");
                         ("jwt_token", VStr token)])
     end)
    (λ err, Obj [("message", VStr (message err))]).
End UserControllerDoc.
End UserControllerDoc.

(** ** Regular expressions in filters

  [{ $regex: text, $options: "i" }] hands the text to the regular
  expression engine of the store.  Two things are known of it here: it
  may reject a pattern, and on a pattern made of ordinary characters and
  of [.] it searches the subject for the pattern, letters compared
  without case and [.] standing for any character but a line feed. *)

Definition isMeta (c : ascii) : bool :=
  existsb (Ascii.eqb c) (list_ascii_of_string "\^$.|?*+()[]{}").

Inductive atom := Lit (c : ascii) | AnyChar.

Fixpoint parsePattern (s : string) : option (list atom) :=
  match s with
  | EmptyString => Some []
  | String c s' =>
      if Ascii.eqb c "." then cons AnyChar <$> parsePattern s'
      else if isMeta c then None
      else cons (Lit c) <$> parsePattern s'
  end.

Definition lowerChar (c : ascii) : ascii :=
  let n := N_of_ascii c in
  if (65 <=? n)%N && (n <=? 90)%N then ascii_of_N (n + 32) else c.

Fixpoint lower (s : string) : string :=
  match s with
  | EmptyString => EmptyString
  | String c s' => String (lowerChar c) (lower s')
  end.

Definition atomMatches (a : atom) (c : ascii) : bool :=
  match a with
  | Lit c' => Ascii.eqb (lowerChar c') (lowerChar c)
  | AnyChar => negb (Ascii.eqb c "010")
  end.

Fixpoint matchHere (p : list atom) (s : string) : bool :=
  match p, s with
  | [], _ => true
  | _ :: _, EmptyString => false
  | a :: p', String c s' => atomMatches a c && matchHere p' s'
  end.

Fixpoint search (p : list atom) (s : string) : bool :=
  matchHere p s ||
  match s with
  | EmptyString => false
  | String _ s' => search p s'
  end.

Class RegexEngine := {
  (* the pattern compiled with option i; None: the pattern is rejected *)
  regexCompile : string → option (string → bool);
  regexCompile_atoms : ∀ text p,
    parsePattern text = Some p →
    ∃ f, regexCompile text = Some f ∧ ∀ s, f s = search p s
}.

Section RegexFilter.
Context {regex : RegexEngine}.
Variable M : model.

(** A filter [{ k1: { $regex: t1, $options: "i" }, ... }]: the field must
    hold a string that the pattern matches. *)
Definition regexMatches (pattern : string) (v : option value) : bool :=
  match regexCompile pattern, v with
  | Some f, Some (VStr s) => f s
  | _, _ => false
  end.

Definition filterMatches (flt : gmap string string) (o : object) : bool :=
  bool_decide (map_Forall (λ k text, regexMatches text (o !! k) = true) flt).

Definition firstRejected (flt : gmap string string) : option string :=
  List.find (λ text, negb (isSome (regexCompile text)))
            (snd <$> map_to_list flt).

(** [M.find(filter)] for such a filter. *)
Definition findRegex (flt : gmap string string) : handler (list document) :=
  match firstRejected flt with
  | Some text => throw (InvalidRegex text)
  | None => find M (filterMatches flt)
  end.
End RegexFilter.

(** ** The employee controller with uploads and the search *)

Module EmployeeController.
Section EmployeeController.
Context {regex : RegexEngine}.

Definition failure (msg : string) : json :=
  Obj [("status", VBool false); ("message", VStr msg)].

Definition getAllEmployees (e : env) (req : request) : db → response * db :=
  tryCatch
    (employees ← find Employee (λ _, true);
     reply 200 (Docs employees))
    (λ err, failure (message err)).

(** The argument of [new Employee(...)] in [createEmployee]. *)
Definition newEmployeeFields (e : env) (req : request) : object :=
  let imagePath :=
    match file req with
    | Some f => VStr ("/uploads/" +:+ filename f)
    | None => VNull
    end in
  list_to_map
    [("first_name", prop (body req) "first_name");
     ("last_name", prop (body req) "last_name");
     ("email", prop (body req) "email");
     ("position", prop (body req) "position");
     ("salary", prop (body req) "salary");
     ("date_of_joining", prop (body req) "date_of_joining");
     ("department", prop (body req) "department");
     ("profileImageUrl", imagePath);
     ("created_at", VDate (now e));
     ("updated_at", VDate (now e))].

Definition createEmployee (e : env) (req : request) : db → response * db :=
  tryCatch
    (let first_name := prop (body req) "first_name" in
     let last_name := prop (body req) "last_name" in
     let email := prop (body req) "email" in
     let position := prop (body req) "position" in
     let salary := prop (body req) "salary" in
     let date_of_joining := prop (body req) "date_of_joining" in
     let department := prop (body req) "department" in
     when (negb (truthy first_name) || negb (truthy last_name)
           || negb (truthy email) || negb (truthy position)
           || negb (truthy salary) || negb (truthy date_of_joining)
           || negb (truthy department))
          (reply 400 (failure "All fields are required"));;
     existingEmployee ← findOne Employee "email" email;
     when (isSome existingEmployee)
          (reply 400 (failure "Employee with this email already exists"));;
     let employee := construct Employee e (newEmployeeFields e req) in
     save Employee employee;;
     reply 201 (Obj [("message", VStr "Employee created successfully.");
                     ("employee_id", VId employee.1);
                     ("profileImageUrl", prop employee.2 "profileImageUrl")]))
    (λ err, failure (message err)).

Definition getEmployeeById (e : env) (req : request) : db → response * db :=
  tryCatch
    (employee ← findById Employee (param (params req) "eid");
     match employee with
     | None => reply 404 (failure "Employee not found.")
     | Some employee => reply 200 (Doc employee)
     end)
    (λ err, failure (message err)).

(** The update handed to [findByIdAndUpdate] in [updateEmployee]. *)
Definition updatedData (e : env) (req : request) : object :=
  let imagePath :=
    match file req with
    | Some f => VStr ("/uploads/" +:+ filename f)
    | None => VUndefined
    end in
  let updatedData := <["updated_at" := VDate (now e)]> (body req) in
  if truthy imagePath
  then <["profileImageUrl" := imagePath]> updatedData
  else updatedData.

Definition updateEmployee (e : env) (req : request) : db → response * db :=
  tryCatch
    (updated ← findByIdAndUpdate Employee (param (params req) "eid")
                                 (updatedData e req);
     when (negb (isSome updated))
          (reply 404 (failure "Employee not found."));;
     reply 200 (Obj [("message", VStr "Employee updated successfully.")]))
    (λ err, failure (message err)).

Definition deleteEmployee (e : env) (req : request) : db → response * db :=
  tryCatch
    (deleted ← findByIdAndDelete Employee (param (params req) "eid");
     when (negb (isSome deleted))
          (reply 404 (failure "Employee not found."));;
     reply 200 (Obj [("message", VStr "Employee deleted successfully.")]))
    (λ err, failure (message err)).

(** The filter built by [searchEmployees]. *)
Definition searchFilter (req : request) : gmap string string :=
  let department := query req !! "department" in
  let position := query req !! "position" in
  let flt : gmap string string := ∅ in
  let flt :=
    match department with
    | Some text => if truthy (VStr text) then <["department" := text]> flt
                   else flt
    | None => flt
    end in
  match position with
  | Some text => if truthy (VStr text) then <["position" := text]> flt
                 else flt
  | None => flt
  end.

Definition searchEmployees (e : env) (req : request) : db → response * db :=
  tryCatch
    (results ← findRegex Employee (searchFilter req);
     reply 200 (Docs results))
    (λ err, failure (message err)).
End EmployeeController.
End EmployeeController.

(** ** The employee controller without validation *)

Module EmployeeControllerDoc.

Definition getAllEmployees (e : env) (req : request) : db → response * db :=
  tryCatch
    (employees ← find Employee (λ _, true);
     reply 200 (Docs employees))
    (λ err, Obj [("message", VStr (message err))]).

Definition createEmployee (e : env) (req : request) : db → response * db :=
  tryCatch
    (let employee :=
       construct Employee e
         (<["updated_at" := VDate (now e)]>
            (<["created_at" := VDate (now e)]> (body req))) in
     save Employee employee;;
     reply 201 (Obj [("message", VStr "Employee created successfully.");
                     ("employee_id", VId employee.1)]))
    (λ err, Obj [("message", VStr (message err))]).

Definition getEmployeeById (e : env) (req : request) : db → response * db :=
  tryCatch
    (employee ← findById Employee (param (params req) "eid");
     match employee with
     | None => reply 404 (Obj [("message", VStr "Employee not found.")])
     | Some employee => reply 200 (Doc employee)
     end)
    (λ err, Obj [("message", VStr (message err))]).

Definition updateEmployee (e : env) (req : request) : db → response * db :=
  tryCatch
    (updated ← findByIdAndUpdate Employee (param (params req) "eid")
                 (<["updated_at" := VDate (now e)]> (body req));
     when (negb (isSome updated))
          (reply 404 (Obj [("message", VStr "Employee not found.")]));;
     reply 200 (Obj [("message",
                      VStr "Employee details updated successfully.")]))
    (λ err, Obj [("message", VStr (message err))]).

Definition deleteEmployee (e : env) (req : request) : db → response * db :=
  tryCatch
    (let eid := param (query req) "eid" in
     deleted ← findByIdAndDelete Employee eid;
     when (negb (isSome deleted))
          (reply 404 (Obj [("message", VStr "Employee not found.")]));;
     reply 204 (Obj [("message", VStr "Employee deleted successfully.")]))
    (λ err, Obj [("message", VStr (message err))]).

End EmployeeControllerDoc.

(** ** Routing

    A router is a list of routes tried in order; a route matches a request
    on its method and on the segments of its path, a segment [:name] of the
    pattern binding [req.params.name]. *)

Inductive method := GET | POST | PUT | DELETE.

#[global] Instance method_eq_dec : EqDecision method.
Proof. solve_decision. Defined.

Inductive segment := Literal (s : string) | Param (name : string).

(** A fixed segment matches without regard to case; a segment [:name]
    matches any segment and binds it. *)
Fixpoint matchPath (pattern : list segment) (p : list string)
    : option (gmap string string) :=
  match pattern, p with
  | [], [] => Some ∅
  | Literal s :: pattern', x :: p' =>
      if String.eqb (lower s) (lower x) then matchPath pattern' p' else None
  | Param name :: pattern', x :: p' =>
      <[name := x]> <$> matchPath pattern' p'
  | _, _ => None
  end.

Definition endpoint : Type := env → request → db → response * db.

Record route := {
  routeMethod : method;
  routePattern : list segment;
  routeHandler : endpoint
}.

(** The request as it arrives: no [params] yet; [inPath] holds the segments
    of the path. *)
Record incoming := {
  inMethod : method;
  inPath : list string;
  inQuery : gmap string string;
  inBody : object;
  inFile : option upload
}.

(** The file is stored by [upload.single] ahead of the handler, on the
    routes that have it. *)
Definition toRequest (withUpload : bool) (i : incoming)
    (ps : gmap string string) : request :=
  {| body := inBody i;
     params := ps;
     query := inQuery i;
     file := if withUpload then inFile i else None;
     validationErrors := [] |}.

Record mounted := {
  mRoute : route;
  mUpload : bool
}.

Fixpoint dispatch (router : list mounted) (e : env) (i : incoming)
    : option (db → response * db) :=
  match router with
  | [] => None
  | m :: router' =>
      if bool_decide (routeMethod (mRoute m) = inMethod i) then
        match matchPath (routePattern (mRoute m)) (inPath i) with
        | Some ps =>
            Some (routeHandler (mRoute m) e (toRequest (mUpload m) i ps))
        | None => dispatch router' e i
        end
      else dispatch router' e i
  end.

Record employeeController := {
  ctlGetAllEmployees : endpoint;
  ctlCreateEmployee : endpoint;
  ctlGetEmployeeById : endpoint;
  ctlUpdateEmployee : endpoint;
  ctlDeleteEmployee : endpoint
}.

Definition plain (m : method) (p : list segment) (h : endpoint) : mounted :=
  {| mRoute := {| routeMethod := m; routePattern := p; routeHandler := h |};
     mUpload := false |}.

Definition uploading (m : method) (p : list segment) (h : endpoint)
    : mounted :=
  {| mRoute := {| routeMethod := m; routePattern := p; routeHandler := h |};
     mUpload := true |}.

(** routes/employeeRoutes.js, [DELETE /employees?eid=xxx] *)
Module EmployeeRoutes.

Definition router (c : employeeController) : list mounted :=
  [ plain GET [Literal "employees"] (ctlGetAllEmployees c);
    plain POST [Literal "employees"] (ctlCreateEmployee c);
    plain GET [Literal "employees"; Param "eid"] (ctlGetEmployeeById c);
    plain PUT [Literal "employees"; Param "eid"] (ctlUpdateEmployee c);
    plain DELETE [Literal "employees"] (ctlDeleteEmployee c) ].

End EmployeeRoutes.

(** The employee routes with uploads, [DELETE /employees/:eid] *)
Module EmployeeRoutesUpload.

Definition router (c : employeeController) (searchEmployees : endpoint)
    : list mounted :=
  [ plain GET [Literal "employees"; Literal "search"] searchEmployees;
    plain GET [Literal "employees"] (ctlGetAllEmployees c);
    plain GET [Literal "employees"; Param "eid"] (ctlGetEmployeeById c);
    uploading POST [Literal "employees"] (ctlCreateEmployee c);
    uploading PUT [Literal "employees"; Param "eid"] (ctlUpdateEmployee c);
    plain DELETE [Literal "employees"; Param "eid"] (ctlDeleteEmployee c) ].

End EmployeeRoutesUpload.

(** The two controllers as the routers import them. *)
Definition withUploads : employeeController :=
  {| ctlGetAllEmployees := EmployeeController.getAllEmployees;
     ctlCreateEmployee := EmployeeController.createEmployee;
     ctlGetEmployeeById := EmployeeController.getEmployeeById;
     ctlUpdateEmployee := EmployeeController.updateEmployee;
     ctlDeleteEmployee := EmployeeController.deleteEmployee |}.

Definition withoutValidation : employeeController :=
  {| ctlGetAllEmployees := EmployeeControllerDoc.getAllEmployees;
     ctlCreateEmployee := EmployeeControllerDoc.createEmployee;
     ctlGetEmployeeById := EmployeeControllerDoc.getEmployeeById;
     ctlUpdateEmployee := EmployeeControllerDoc.updateEmployee;
     ctlDeleteEmployee := EmployeeControllerDoc.deleteEmployee |}.

(** ** The server entry point that registers [GET /test] *)

Module Server.

(** The handler has no [try]: when [save] throws, no response is sent. *)
Definition test (e : env) (req : request) (d : db) : option response * db :=
  let user :=
    construct User e
      (list_to_map
         [("username", VStr "test");
          ("email", VStr "test@email.com");
          ("password", VStr "123456")]) in
  match save User user d with
  | Next _ d' =>
      (Some {| status := 200;
               payload := Obj [("message", VStr "Test user saved!")] |}, d')
  | Replied r d' => (Some r, d')
  | Thrown _ d' => (None, d')
  end.

End Server.

(** ** What the specification speaks of *)


(** The stored image path of an employee. *)
Definition imagePath (d : db) (o : N) : option value :=
  f ← employees d !! o; f !! "profileImageUrl".

(** The field of a response body. *)
Definition field (j : json) (k : string) : option value :=
  match j with
  | Obj fields => snd <$> List.find (λ kv, String.eqb kv.1 k) fields
  | _ => None
  end.

Definition requiredFields : list string :=
  ["first_name"; "last_name"; "email"; "position"; "salary";
   "date_of_joining"; "department"].

Definition textFields : list string :=
  ["first_name"; "last_name"; "email"; "position"; "department"].

(** The reply to a login that fails. *)
Definition invalidCredentials : response :=
  {| status := 400;
     payload := Obj [("status", VBool false);
                     ("message", VStr "Invalid username or password")] |}.

(** The replies to a login whose password [bcrypt.compare] does not take. *)
Definition illegalArguments : response :=
  {| status := 500;
     payload := Obj [("status", VBool false);
                     ("message", VStr (message IllegalArguments))] |}.

Definition illegalArgumentsDoc : response :=
  {| status := 500;
     payload := Obj [("message", VStr (message IllegalArguments))] |}.

(** The replies of [signup]. *)
Definition created (id : N) : response :=
  {| status := 201;
     payload := Obj [("message", VStr "User created successfully.");
                     ("user_id", VId id)] |}.

Definition emailExists : response :=
  {| status := 400;
     payload := Obj [("status", VBool false);
                     ("message", VStr "Email already exists")] |}.

Definition emailExistsDoc : response :=
  {| status := 400;
     payload := Obj [("message", VStr "Email already exists")] |}.

(** The database after the insertion of a user. *)
Definition withUser (id : N) (fields : object) (d : db) : db :=
  {| users := <[id := fields]> (users d); employees := employees d |}.

(** The replies of the employee handlers to an identifier, in the
    controller with uploads and in the controller without validation. *)
Definition notFound : response :=
  {| status := 404;
     payload := EmployeeController.failure "Employee not found." |}.

Definition notFoundDoc : response :=
  {| status := 404;
     payload := Obj [("message", VStr "Employee not found.")] |}.

Definition deleted200 : response :=
  {| status := 200;
     payload := Obj [("message", VStr "Employee deleted successfully.")] |}.

Definition deleted204 : response :=
  {| status := 204;
     payload := Obj [("message", VStr "Employee deleted successfully.")] |}.

(** The database after the removal of an employee. *)
Definition withoutEmployee (o : N) (d : db) : db :=
  {| users := users d; employees := delete o (employees d) |}.

(** The replies of [createEmployee] in the controller with uploads. *)
Definition allRequired : response :=
  {| status := 400;
     payload := EmployeeController.failure "All fields are required" |}.

Definition employeeExists : response :=
  {| status := 400;
     payload :=
       EmployeeController.failure "Employee with this email already exists" |}.

Definition employeeCreated (employee : document) : response :=
  {| status := 201;
     payload := Obj [("message", VStr "Employee created successfully.");
                     ("employee_id", VId employee.1);
                     ("profileImageUrl",
                      prop employee.2 "profileImageUrl")] |}.

(** Every required field of the body is truthy. *)
Definition allTruthy (b : object) : bool :=
  forallb (λ k, truthy (prop b k)) requiredFields.

(** The reply of [updateEmployee] in the controller with uploads, and the
    database after the update of an employee. *)
Definition updated200 : response :=
  {| status := 200;
     payload := Obj [("message", VStr "Employee updated successfully.")] |}.

Definition withEmployee (o : N) (fields : object) (d : db) : db :=
  {| users := users d; employees := <[o := fields]> (employees d) |}.

(** ** Search, as the specification words it *)



(** The filter text given for [k] in the query string, if it is given and
    not empty. *)
Definition supplied (req : request) (k : string) : option string :=
  match query req !! k with
  | Some text => if truthy (VStr text) then Some text else None
  | None => None
  end.



Section SearchFilters.
Context {regex : RegexEngine}.


End SearchFilters.

(** The image path that the handlers of the controller with uploads give
    to the model for an uploaded file. *)
Definition uploadPath (f : upload) : value :=
  VStr ("/uploads/" +:+ filename f).

(** The user that [GET /test] builds, with the defaults of the schema. *)
Definition testUserFields (e : env) : object :=
  (construct User e
     (list_to_map
        [("username", VStr "test");
         ("email", VStr "test@email.com");
         ("password", VStr "123456")])).2.

(** The reply of [login] that carries the token. *)
Definition loggedIn (token : string) : response :=
  {| status := 200;
     payload := Obj [("message", VStr "Login successful.");
                     ("jwt_token", VStr token)] |}.

(** No two documents of a collection hold the same email: what the unique
    index on [email] keeps. *)
Definition uniqueEmails (c : gmap N object) : Prop :=
  ∀ i j f g,
    c !! i = Some f → c !! j = Some g →
    fieldKey f "email" = fieldKey g "email" → i = j.

(** What a handler may do to the employees: nothing, write one document
    that passes the unique indexes of the model, or remove one document;
    the users stay as they are. *)
Definition employeeWrite (d d' : db) : Prop :=
  d' = d
  ∨ (∃ i o,
       d' = withEmployee i o d
       ∧ firstDuplicate Employee (employees d) i o = None)
  ∨ (∃ i, d' = withoutEmployee i d).

(** What a handler may do to the users: nothing, or insert one user that
    passes the unique index; the employees stay as they are. *)
Definition userWrite (d d' : db) : Prop :=
  d' = d
  ∨ ∃ i o,
      d' = withUser i o d ∧ firstDuplicate User (users d) i o = None.

(** The reply that lists documents, and the reply that carries one. *)
Definition listed (ds : list document) : response :=
  {| status := 200; payload := Docs ds |}.

Definition found (doc : document) : response :=
  {| status := 200; payload := Doc doc |}.

(** A body whose required fields have the type that the schema declares,
    so that the model stores them as they are given: the five texts are
    strings, the salary is a number, and the date of joining is a number of
    milliseconds within the range of a JavaScript date. *)
Definition typedBody (b : object) : Prop :=
  (∀ k, k ∈ textFields → ∃ s, prop b k = VStr s)
  ∧ (∃ n, prop b "salary" = VNum n)
  ∧ (∃ t, prop b "date_of_joining" = VNum t
          ∧ (-8640000000000000 ≤ t ≤ 8640000000000000)%Z).

(** The field [k] of the stored employee [o]. *)
Definition employeeField (d : db) (o : N) (k : string) : option value :=
  f ← employees d !! o; f !! k.

Definition updated200Doc : response :=
  {| status := 200;
     payload :=
       Obj [("message", VStr "Employee details updated successfully.")] |}.

(** routes/userRoutes.js *)
Module UserRoutes.

Definition router (signup login : endpoint) : list mounted :=
  [ plain POST [Literal "signup"] signup;
    plain POST [Literal "login"] login ].

End UserRoutes.

(** ** Instances to run the handlers on *)

Module Sample.

Fixpoint fit (n : nat) (s : string) : string :=
  match n with
  | O => EmptyString
  | S n' =>
      match s with
      | EmptyString => String "." (fit n' EmptyString)
      | String c s' => String c (fit n' s')
      end
  end.

Lemma fit_length n s : String.length (fit n s) = n.
Proof.
  revert s. induction n as [|n IH]; intros s; [done|].
  destruct s; simpl; by rewrite IH.
Qed.

#[export] Instance crypto : Crypto :=
  {| bcrypt_hash := λ s _ salt, fit 60 ("$2a$10$" +:+ salt +:+ s);
     bcrypt_compare := λ s h,
       String.eqb (String.substring 29 31 h) (fit 31 s);
     jwt_sign := λ _ secret _ _, "jwt." +:+ secret;
     bcrypt_hash_length := λ s _ salt, fit_length 60 _ |}.

Lemma regex_atoms text p :
  parsePattern text = Some p →
  ∃ f, (search <$> parsePattern text) = Some f ∧ ∀ s, f s = search p s.
Proof. intros ->. by eexists. Qed.

#[export] Instance regex : RegexEngine :=
  {| regexCompile := λ text, search <$> parsePattern text;
     regexCompile_atoms := regex_atoms |}.

Definition emptyDb : db := {| users := ∅; employees := ∅ |}.

Definition env0 : env :=
  {| now := 1700000000000; newId := 1; salt := "abcdefghijklmnopqrstuv";
     JWT_SECRET := Some "secret" |}.

Definition json_body (l : list (string * value)) : request :=
  {| body := list_to_map l; params := ∅; query := ∅; file := None;
     validationErrors := [] |}.

Definition alice : request :=
  json_body [("username", VStr "a"); ("email", VStr "a@x.com");
             ("password", VStr "secret1")].

Definition aliceWrongPassword : request :=
  json_body [("email", VStr "a@x.com"); ("password", VStr "wrong")].

Definition bob : request :=
  json_body [("username", VStr "b"); ("email", VStr "b@x.com");
             ("password", VStr "secret2")].

(** The user stored by the signup of [alice], and the database after it. *)
Definition aliceFields : object :=
  newUserFields env0 (VStr "a") (VStr "a@x.com")
    (bcrypt_hash "secret1" 10 (salt env0)).

Definition dbAlice : db := withUser 1 aliceFields emptyDb.

Definition carolFields : object :=
  list_to_map
    [("first_name", VStr "Carol"); ("last_name", VStr "Jones");
     ("email", VStr "carol@x.com"); ("position", VStr "Engineer");
     ("salary", VNum 75000); ("date_of_joining", VStr "2024-01-15");
     ("department", VStr "Sales");
     ("created_at", VDate 1600000000000);
     ("updated_at", VDate 1600000000000)].

(** A database with one employee, whose ObjectId is 1. *)
Definition dbCarol : db := {| users := ∅; employees := {[ 1%N := carolFields ]} |}.

Definition idCarol : string := "000000000000000000000001".

Definition withParam (s : string) (req : request) : request :=
  {| body := body req; params := {[ "eid" := s ]}; query := query req;
     file := file req; validationErrors := validationErrors req |}.

Definition withQuery (k s : string) (req : request) : request :=
  {| body := body req; params := params req; query := <[k := s]> (query req);
     file := file req; validationErrors := validationErrors req |}.

Definition withFile (name : string) (req : request) : request :=
  {| body := body req; params := params req; query := query req;
     file := Some {| filename := name |};
     validationErrors := validationErrors req |}.

Definition erinFields : object :=
  list_to_map
    [("first_name", VStr "Erin"); ("last_name", VStr "Lee");
     ("email", VStr "erin@x.com"); ("position", VStr "Developer");
     ("salary", VNum 90000); ("date_of_joining", VStr "2023-03-01");
     ("department", VStr "Engineering");
     ("created_at", VDate 1600000000000);
     ("updated_at", VDate 1600000000000)].

(** A database with two employees, one in Sales and one in Engineering. *)
Definition dbTwo : db :=
  {| users := ∅;
     employees := <[2%N := erinFields]> {[ 1%N := carolFields ]} |}.

(** A creation with every field given. *)
Definition dave : request :=
  json_body
    [("first_name", VStr "Dave"); ("last_name", VStr "Smith");
     ("email", VStr "dave@x.com"); ("position", VStr "Intern");
     ("salary", VNum 30000); ("date_of_joining", VStr "2024-06-01");
     ("department", VStr "Engineering")].

(** A creation with every field given and a salary of 0. *)
Definition daveUnpaid : request :=
  json_body
    [("first_name", VStr "Dave"); ("last_name", VStr "Smith");
     ("email", VStr "dave@x.com"); ("position", VStr "Intern");
     ("salary", VNum 0); ("date_of_joining", VStr "2024-06-01");
     ("department", VStr "Engineering")].

(** An environment without a signing secret, and one whose new ObjectId
    is 2. *)
Definition envNoSecret : env :=
  {| now := 1700000000000; newId := 1; salt := "abcdefghijklmnopqrstuv";
     JWT_SECRET := None |}.

Definition env2 : env :=
  {| now := 1700000060000; newId := 2; salt := "abcdefghijklmnopqrstuv";
     JWT_SECRET := Some "secret" |}.

Definition aliceNoPassword : request :=
  json_body [("email", VStr "a@x.com")].

Definition bobNoPassword : request :=
  json_body [("email", VStr "b@x.com")].

Definition rejected : request :=
  {| body := ∅; params := ∅; query := ∅; file := None;
     validationErrors := ["Invalid email"] |}.

(** A creation whose fields have the declared types. *)
Definition frank : request :=
  json_body
    [("first_name", VStr "Frank"); ("last_name", VStr "Hall");
     ("email", VStr "frank@x.com"); ("position", VStr "Analyst");
     ("salary", VNum 52000); ("date_of_joining", VNum 1717200000000);
     ("department", VStr "Finance")].

Definition idTwo : string := "000000000000000000000002".

End Sample.

(** * Properties *)

(** ** The model layer *)

Lemma elem_of_select P (c : gmap N object) i o :
  (i, o) ∈ select P c ↔ c !! i = Some o ∧ P o = true.
Proof.
  unfold select. rewrite list_elem_of_filter, elem_of_map_to_list. simpl. tauto.
Qed.

Lemma selectOne_Some k v (c : gmap N object) doc :
  selectOne k v c = Some doc →
  c !! doc.1 = Some doc.2 ∧ fieldKey doc.2 k = filterValue v.
Proof.
  unfold selectOne. intros Hhd. apply head_Some_elem_of in Hhd.
  destruct doc as [i o]. apply elem_of_select in Hhd as [Hc Hk].
  by apply bool_decide_eq_true in Hk.
Qed.

Lemma selectOne_None k v (c : gmap N object) :
  selectOne k v c = None ↔
  ∀ i o, c !! i = Some o → fieldKey o k ≠ filterValue v.
Proof.
  unfold selectOne. rewrite head_None. split.
  - intros Hnil i o Hc Hk.
    assert ((i, o) ∈ select (λ o, bool_decide (fieldKey o k = filterValue v)) c)
      as Hin by (apply elem_of_select; by rewrite bool_decide_eq_true).
    rewrite Hnil in Hin. by apply elem_of_nil in Hin.
  - intros Hall. apply elem_of_nil_inv. intros [i o] Hin.
    apply elem_of_select in Hin as [Hc Hk].
    apply bool_decide_eq_true in Hk. by eapply Hall.
Qed.

Lemma selectOne_found k v (c : gmap N object) i o :
  c !! i = Some o → fieldKey o k = filterValue v → is_Some (selectOne k v c).
Proof.
  intros Hc Hk. destruct (selectOne k v c) eqn:Hsel; [by eexists|].
  rewrite selectOne_None in Hsel. by destruct (Hsel i o Hc).
Qed.

Lemma find_all_false {A} (P : A → bool) (l : list A) :
  (∀ x, x ∈ l → P x = false) → List.find P l = None.
Proof.
  induction l as [|x l IH]; intros Hall; [done|]. cbn.
  rewrite (Hall x) by by left. apply IH. intros y Hy. apply Hall. by right.
Qed.

Lemma find_one_true {A} (P : A → bool) (l : list A) x :
  x ∈ l → P x = true → is_Some (List.find P l).
Proof.
  intros Hx HP. destruct (List.find P l) eqn:Hfind; [by eexists|].
  apply list_elem_of_In in Hx.
  rewrite (find_none _ _ Hfind x Hx) in HP. done.
Qed.

Lemma uniqueEmails_singleton i (f : object) :
  uniqueEmails ({[ i := f ]} : gmap N object).
Proof.
  intros j k g h Hj Hk _.
  apply lookup_singleton_Some in Hj as [<- _].
  by apply lookup_singleton_Some in Hk as [<- _].
Qed.

(** ** Running a handler *)

Ltac run_handler :=
  unfold tryCatch, findOne, find, findById, findByIdAndDelete,
    findByIdAndUpdate, castId, bcryptHash, bcryptCompare, jwtSign, when;
  unfold mbind, mret, handler_bind, handler_ret, access, reply, throw;
  cbn [negb isEmpty isSome collection User Employee].

(** ** Login *)

Section Login.
Context {crypto : Crypto}.

Lemma login_unknown_email e req d :
  validationErrors req = [] →
  selectOne "email" (prop (body req) "email") (users d) = None →
  UserController.login e req d = (invalidCredentials, d).
Proof.
  intros Hv Hnone. unfold UserController.login. rewrite Hv.
  run_handler. rewrite Hnone. reflexivity.
Qed.

Lemma login_wrong_password e req d u p h :
  validationErrors req = [] →
  selectOne "email" (prop (body req) "email") (users d) = Some u →
  prop (body req) "password" = VStr p →
  prop u.2 "password" = VStr h →
  bcrypt_compare p h = false →
  UserController.login e req d = (invalidCredentials, d).
Proof.
  intros Hv Hu Hp Hh Hcmp. unfold UserController.login. rewrite Hv.
  run_handler. rewrite Hu, Hp, Hh, Hcmp. reflexivity.
Qed.

Lemma login_doc_unknown_email e req d :
  selectOne "email" (prop (body req) "email") (users d) = None →
  UserControllerDoc.login e req d = (invalidCredentials, d).
Proof.
  intros Hnone. unfold UserControllerDoc.login.
  run_handler. rewrite Hnone. reflexivity.
Qed.

Lemma login_doc_wrong_password e req d u p h :
  selectOne "email" (prop (body req) "email") (users d) = Some u →
  prop (body req) "password" = VStr p →
  prop u.2 "password" = VStr h →
  bcrypt_compare p h = false →
  UserControllerDoc.login e req d = (invalidCredentials, d).
Proof.
  intros Hu Hp Hh Hcmp. unfold UserControllerDoc.login.
  run_handler. rewrite Hu, Hp, Hh, Hcmp. reflexivity.
Qed.

(** With a password that is a string, a login that fails because no user
    has the email and a login that fails because [bcrypt.compare] returns
    false get the same response, in both user controllers. *)
Lemma login_failures_same_reply
    (e1 e2 : env) (req1 req2 : request) (d1 d2 : db)
    (u : document) (p h : string) :
  validationErrors req1 = [] →
  validationErrors req2 = [] →
  selectOne "email" (prop (body req1) "email") (users d1) = None →
  selectOne "email" (prop (body req2) "email") (users d2) = Some u →
  prop (body req2) "password" = VStr p →
  prop u.2 "password" = VStr h →
  bcrypt_compare p h = false →
  UserController.login e1 req1 d1 = (invalidCredentials, d1)
  ∧ UserController.login e2 req2 d2 = (invalidCredentials, d2)
  ∧ UserControllerDoc.login e1 req1 d1 = (invalidCredentials, d1)
  ∧ UserControllerDoc.login e2 req2 d2 = (invalidCredentials, d2).
Proof.
  intros Hv1 Hv2 Hnone Hu Hp Hh Hcmp.
  split; [by apply login_unknown_email|].
  split; [by eapply login_wrong_password|].
  split; [by apply login_doc_unknown_email|].
  by eapply login_doc_wrong_password.
Qed.

Lemma login_not_a_string e req d u :
  validationErrors req = [] →
  selectOne "email" (prop (body req) "email") (users d) = Some u →
  (∀ p, prop (body req) "password" ≠ VStr p) →
  UserController.login e req d = (illegalArguments, d).
Proof.
  intros Hv Hu Hpw. unfold UserController.login. rewrite Hv.
  run_handler. rewrite Hu.
  destruct (prop (body req) "password") as [| | | |p| |] eqn:Hp.
  1-4,6-7: reflexivity.
  by destruct (Hpw p).
Qed.

Lemma login_doc_not_a_string e req d u :
  selectOne "email" (prop (body req) "email") (users d) = Some u →
  (∀ p, prop (body req) "password" ≠ VStr p) →
  UserControllerDoc.login e req d = (illegalArgumentsDoc, d).
Proof.
  intros Hu Hpw. unfold UserControllerDoc.login.
  run_handler. rewrite Hu.
  destruct (prop (body req) "password") as [| | | |p| |] eqn:Hp.
  1-4,6-7: reflexivity.
  by destruct (Hpw p).
Qed.

(** C1, where the code leaves it: the two causes of a failed login are told
    apart when the password of the request is not a string, as in a body
    without [password].  On the same database, the login with an email that
    no user has is answered with status 400 and "Invalid username or
    password", and the login with the email of a stored user with status
    500 and the message of the exception that [bcrypt.compare] throws; the
    two responses differ in status and in message, in both user
    controllers. *)
Theorem login_failure_causes_told_apart
    (e1 e2 : env) (req1 req2 : request) (d : db) (u : document) :
  validationErrors req1 = [] →
  validationErrors req2 = [] →
  selectOne "email" (prop (body req1) "email") (users d) = None →
  selectOne "email" (prop (body req2) "email") (users d) = Some u →
  (∀ p, prop (body req2) "password" ≠ VStr p) →
  UserController.login e1 req1 d = (invalidCredentials, d)
  ∧ UserController.login e2 req2 d = (illegalArguments, d)
  ∧ UserControllerDoc.login e1 req1 d = (invalidCredentials, d)
  ∧ UserControllerDoc.login e2 req2 d = (illegalArgumentsDoc, d)
  ∧ status invalidCredentials = 400
  ∧ status illegalArguments = 500
  ∧ status illegalArgumentsDoc = 500
  ∧ field (payload invalidCredentials) "message"
    ≠ field (payload illegalArguments) "message"
  ∧ field (payload invalidCredentials) "message"
    ≠ field (payload illegalArgumentsDoc) "message".
Proof.
  intros Hv1 Hv2 Hnone Hu Hpw.
  split; [by apply login_unknown_email|].
  split; [by eapply login_not_a_string|].
  split; [by apply login_doc_unknown_email|].
  split; [by eapply login_doc_not_a_string|].
  repeat split; discriminate.
Qed.
End Login.

Lemma login_failure_causes_told_apart_witness :
  UserController.login (crypto := Sample.crypto)
    Sample.env0 Sample.bobNoPassword Sample.dbAlice
  = (invalidCredentials, Sample.dbAlice)
  ∧ UserController.login (crypto := Sample.crypto)
      Sample.env0 Sample.aliceNoPassword Sample.dbAlice
    = (illegalArguments, Sample.dbAlice).
Proof.
  destruct (login_failure_causes_told_apart (crypto := Sample.crypto)
              Sample.env0 Sample.env0 Sample.bobNoPassword
              Sample.aliceNoPassword Sample.dbAlice
              (1%N, Sample.aliceFields))
    as (Hunknown & Hstored & _).
  1-4: vm_compute; reflexivity.
  - intros p. vm_compute. discriminate.
  - split; assumption.
Defined.

(** ** Signup *)

Lemma save_ok M doc d :
  firstInvalid M doc.2 = None →
  collection M d !! doc.1 = None →
  firstDuplicate M (collection M d) doc.1 doc.2 = None →
  save M doc d
  = Next () (withCollection M (<[doc.1 := doc.2]> (collection M d)) d).
Proof.
  intros Hvalid Hfresh Hdup. unfold save. rewrite Hvalid, Hdup.
  rewrite bool_decide_eq_false_2; [done|]. rewrite Hfresh. by intros [? ?].
Qed.

Lemma keyTaken_unused (c : gmap N object) self k o :
  (∀ i f, c !! i = Some f → fieldKey f k ≠ fieldKey o k) →
  bool_decide (keyTaken c self k o) = false.
Proof.
  intros Hunused. apply bool_decide_eq_false. intros (i & f & Hc & _ & Hk).
  by eapply Hunused.
Qed.

Lemma nonempty_eqb (s : string) : s ≠ "" → String.eqb s "" = false.
Proof. by destruct s. Qed.

Lemma length_60_eqb (s : string) :
  String.length s = 60%nat → String.eqb s "" = false.
Proof. by destruct s. Qed.

Section Signup.
Context {crypto : Crypto}.

(** The constructor keeps the five fields of a user as they are. *)
Lemma construct_user e (name mail hash : string) :
  construct User e (newUserFields e (VStr name) (VStr mail) hash)
  = (newId e, newUserFields e (VStr name) (VStr mail) hash).
Proof. reflexivity. Qed.

Lemma save_user (e : env) d name mail pw :
  name ≠ "" → mail ≠ "" →
  (∀ i f, users d !! i = Some f → fieldKey f "email" ≠ VStr mail) →
  users d !! newId e = None →
  save User
    (newId e,
     newUserFields e (VStr name) (VStr mail) (bcrypt_hash pw 10 (salt e))) d
  = Next ()
      (withUser (newId e)
         (newUserFields e (VStr name) (VStr mail)
            (bcrypt_hash pw 10 (salt e))) d).
Proof.
  intros Hname Hmail Hunused Hfresh.
  rewrite save_ok; [done| |done|].
  - unfold firstInvalid, requiredOk. cbn -[prop newUserFields].
    replace (prop _ "username") with (VStr name) by reflexivity.
    replace (prop _ "email") with (VStr mail) by reflexivity.
    replace (prop _ "password")
      with (VStr (bcrypt_hash pw 10 (salt e))) by reflexivity.
    rewrite (nonempty_eqb name Hname), (nonempty_eqb mail Hmail).
    rewrite (length_60_eqb _ (bcrypt_hash_length pw 10 (salt e))). done.
  - unfold firstDuplicate. cbn -[newUserFields].
    rewrite keyTaken_unused; [done|]. intros i f Hf. exact (Hunused i f Hf).
Qed.

Lemma signup_doc_fresh e req d name mail pw :
  prop (body req) "username" = VStr name →
  prop (body req) "email" = VStr mail →
  prop (body req) "password" = VStr pw →
  name ≠ "" → mail ≠ "" →
  (∀ i f, users d !! i = Some f → fieldKey f "email" ≠ VStr mail) →
  users d !! newId e = None →
  UserControllerDoc.signup e req d
  = (created (newId e),
     withUser (newId e)
       (newUserFields e (VStr name) (VStr mail)
          (bcrypt_hash pw 10 (salt e))) d).
Proof.
  intros Hn Hm Hp Hname Hmail Hunused Hfresh.
  unfold UserControllerDoc.signup. rewrite Hn, Hm, Hp.
  run_handler.
  assert (selectOne "email" (VStr mail) (users d) = None) as ->.
  { apply selectOne_None. intros i f Hf. exact (Hunused i f Hf). }
  cbn [isSome]. rewrite construct_user.
  rewrite save_user by done. reflexivity.
Qed.

Lemma signup_fresh e req d name mail pw :
  validationErrors req = [] →
  prop (body req) "username" = VStr name →
  prop (body req) "email" = VStr mail →
  prop (body req) "password" = VStr pw →
  name ≠ "" → mail ≠ "" →
  (∀ i f, users d !! i = Some f → fieldKey f "email" ≠ VStr mail) →
  users d !! newId e = None →
  UserController.signup e req d
  = (created (newId e),
     withUser (newId e)
       (newUserFields e (VStr name) (VStr mail)
          (bcrypt_hash pw 10 (salt e))) d).
Proof.
  intros Hv Hn Hm Hp Hname Hmail Hunused Hfresh.
  unfold UserController.signup. rewrite Hv, Hn, Hm, Hp.
  run_handler.
  assert (selectOne "email" (VStr mail) (users d) = None) as ->.
  { apply selectOne_None. intros i f Hf. exact (Hunused i f Hf). }
  cbn [isSome]. rewrite construct_user.
  rewrite save_user by done. reflexivity.
Qed.

Lemma signup_doc_duplicate e req d i f mail :
  users d !! i = Some f →
  f !! "email" = Some (VStr mail) →
  prop (body req) "email" = VStr mail →
  UserControllerDoc.signup e req d = (emailExistsDoc, d).
Proof.
  intros Hi Hf Hm. unfold UserControllerDoc.signup. rewrite Hm.
  run_handler.
  destruct (selectOne_found "email" (VStr mail) (users d) i f Hi) as [u ->];
    [by unfold fieldKey; rewrite Hf|].
  reflexivity.
Qed.

Lemma signup_duplicate e req d i f mail :
  users d !! i = Some f →
  f !! "email" = Some (VStr mail) →
  prop (body req) "email" = VStr mail →
  status (UserController.signup e req d).1 = 400
  ∧ (UserController.signup e req d).2 = d
  ∧ (validationErrors req = [] →
     UserController.signup e req d = (emailExists, d)).
Proof.
  intros Hi Hf Hm. unfold UserController.signup. rewrite Hm.
  destruct (validationErrors req) as [|err errs]; run_handler.
  - destruct (selectOne_found "email" (VStr mail) (users d) i f Hi) as [u ->];
      [by unfold fieldKey; rewrite Hf|].
    done.
  - done.
Qed.
End Signup.

Section SignupClaim.
Context {crypto : Crypto}.

(** C4: a signup whose email is the email of a stored user is answered with
    status 400 ("Email already exists" once the request has passed the
    validators) and inserts nothing.  A signup with a username and an email
    that are non-empty strings, a password that is a string, an email that
    no stored user has and a new ObjectId is answered with status 201 and
    that ObjectId as [user_id]; the user is stored under it, and any later
    signup with this email is answered with status 400 and inserts
    nothing.  Both user controllers. *)
Theorem signup_duplicate_400_fresh_201 (e : env) (req : request) (d : db) :
  (∀ i f mail,
     users d !! i = Some f →
     f !! "email" = Some (VStr mail) →
     prop (body req) "email" = VStr mail →
     status (UserController.signup e req d).1 = 400
     ∧ (UserController.signup e req d).2 = d
     ∧ (validationErrors req = [] →
        UserController.signup e req d = (emailExists, d))
     ∧ UserControllerDoc.signup e req d = (emailExistsDoc, d))
  ∧ (∀ name mail pw,
       prop (body req) "username" = VStr name →
       prop (body req) "email" = VStr mail →
       prop (body req) "password" = VStr pw →
       name ≠ "" → mail ≠ "" →
       (∀ i f, users d !! i = Some f → fieldKey f "email" ≠ VStr mail) →
       users d !! newId e = None →
       let d' :=
         withUser (newId e)
           (newUserFields e (VStr name) (VStr mail)
              (bcrypt_hash pw 10 (salt e))) d in
       (validationErrors req = [] →
        UserController.signup e req d = (created (newId e), d'))
       ∧ UserControllerDoc.signup e req d = (created (newId e), d')
       ∧ (∀ e' req',
            prop (body req') "email" = VStr mail →
            status (UserController.signup e' req' d').1 = 400
            ∧ (UserController.signup e' req' d').2 = d'
            ∧ UserControllerDoc.signup e' req' d' = (emailExistsDoc, d'))).
Proof.
  split.
  - intros i f mail Hi Hf Hm.
    destruct (signup_duplicate e req d i f mail Hi Hf Hm) as (H1 & H2 & H3).
    repeat split; try done. by eapply signup_doc_duplicate.
  - intros name mail pw Hn Hm Hp Hname Hmail Hunused Hfresh d'.
    split; [intros Hv; by eapply signup_fresh|].
    split; [by eapply signup_doc_fresh|].
    intros e' req' Hm'.
    assert (users d' !! newId e
            = Some (newUserFields e (VStr name) (VStr mail)
                      (bcrypt_hash pw 10 (salt e)))) as Hstored
      by apply lookup_insert_eq.
    destruct (signup_duplicate e' req' d' _ _ mail Hstored eq_refl Hm')
      as (H1 & H2 & _).
    repeat split; try done.
    by eapply signup_doc_duplicate.
Qed.
End SignupClaim.


Lemma signup_duplicate_400_fresh_201_witness :
  UserControllerDoc.signup (crypto := Sample.crypto)
    Sample.env0 Sample.alice Sample.emptyDb
  = (created 1, Sample.dbAlice)
  ∧ UserControllerDoc.signup (crypto := Sample.crypto)
      Sample.env0 Sample.alice Sample.dbAlice
    = (emailExistsDoc, Sample.dbAlice).
Proof.
  destruct (signup_duplicate_400_fresh_201 (crypto := Sample.crypto)
              Sample.env0 Sample.alice Sample.emptyDb) as [_ Hfresh].
  specialize (Hfresh "a" "a@x.com" "secret1").
  cbv zeta in Hfresh.
  destruct Hfresh as (_ & Hcreated & Hagain).
  1-3: (vm_compute; reflexivity).
  1-2: discriminate.
  - intros i f Hf. unfold Sample.emptyDb in Hf. simpl in Hf.
    by rewrite lookup_empty in Hf.
  - reflexivity.
  - split. exact Hcreated.
    pose proof (Hagain Sample.env0 Sample.alice) as H.
    exact (proj2 (proj2 (H eq_refl))).
Defined.

(** The scenario of the specification: a signup, a login with a wrong
    password, a login with the right one. *)
Example signup_then_login :
  UserController.signup (crypto := Sample.crypto)
    Sample.env0 Sample.alice Sample.emptyDb
  = (created 1, Sample.dbAlice)
  ∧ UserController.login (crypto := Sample.crypto)
      Sample.env0 Sample.aliceWrongPassword Sample.dbAlice
    = (invalidCredentials, Sample.dbAlice)
  ∧ UserController.login (crypto := Sample.crypto)
      Sample.env0 Sample.alice Sample.dbAlice
    = ({| status := 200;
          payload := Obj [("message", VStr "Login successful.");
                          ("jwt_token", VStr "jwt.secret")] |},
       Sample.dbAlice).
Proof. repeat split; vm_compute; reflexivity. Qed.

(** ** Delete *)

Lemma deleteEmployee_absent e req d s o :
  params req !! "eid" = Some s → parseObjectId s = Some o →
  employees d !! o = None →
  EmployeeController.deleteEmployee e req d = (notFound, d).
Proof.
  intros Hs Ho Hd. unfold EmployeeController.deleteEmployee, param.
  rewrite Hs. run_handler. rewrite Ho. cbn. rewrite Hd. reflexivity.
Qed.

Lemma deleteEmployee_present e req d s o f :
  params req !! "eid" = Some s → parseObjectId s = Some o →
  employees d !! o = Some f →
  EmployeeController.deleteEmployee e req d = (deleted200, withoutEmployee o d).
Proof.
  intros Hs Ho Hd. unfold EmployeeController.deleteEmployee, param.
  rewrite Hs. run_handler. rewrite Ho. cbn. rewrite Hd. reflexivity.
Qed.


Lemma getEmployeeById_absent e req d s o :
  params req !! "eid" = Some s → parseObjectId s = Some o →
  employees d !! o = None →
  EmployeeController.getEmployeeById e req d = (notFound, d).
Proof.
  intros Hs Ho Hd. unfold EmployeeController.getEmployeeById, param.
  rewrite Hs. run_handler. rewrite Ho. cbn. rewrite Hd. reflexivity.
Qed.

Lemma deleteEmployee_doc_absent e req d s o :
  query req !! "eid" = Some s → parseObjectId s = Some o →
  employees d !! o = None →
  EmployeeControllerDoc.deleteEmployee e req d = (notFoundDoc, d).
Proof.
  intros Hs Ho Hd. unfold EmployeeControllerDoc.deleteEmployee, param.
  rewrite Hs. run_handler. rewrite Ho. cbn. rewrite Hd. reflexivity.
Qed.

Lemma deleteEmployee_doc_present e req d s o f :
  query req !! "eid" = Some s → parseObjectId s = Some o →
  employees d !! o = Some f →
  EmployeeControllerDoc.deleteEmployee e req d
  = (deleted204, withoutEmployee o d).
Proof.
  intros Hs Ho Hd. unfold EmployeeControllerDoc.deleteEmployee, param.
  rewrite Hs. run_handler. rewrite Ho. cbn. rewrite Hd. reflexivity.
Qed.

Lemma getEmployeeById_doc_absent e req d s o :
  params req !! "eid" = Some s → parseObjectId s = Some o →
  employees d !! o = None →
  EmployeeControllerDoc.getEmployeeById e req d = (notFoundDoc, d).
Proof.
  intros Hs Ho Hd. unfold EmployeeControllerDoc.getEmployeeById, param.
  rewrite Hs. run_handler. rewrite Ho. cbn. rewrite Hd. reflexivity.
Qed.

(** C7: for an identifier that is an ObjectId, [deleteEmployee] answers 404
    and leaves the database as it was when no employee has the identifier;
    when one has, the employee is removed (status 200, or 204 in the
    controller without validation), a [getEmployeeById] with the identifier
    is then answered with 404, and every other document, users included, is
    as before. *)
Theorem delete_not_found_or_removed
    (e : env) (req : request) (d : db) (s : string) (o : N) :
  parseObjectId s = Some o →
  (params req !! "eid" = Some s →
   (employees d !! o = None →
    EmployeeController.deleteEmployee e req d = (notFound, d))
   ∧ (∀ f, employees d !! o = Some f →
        EmployeeController.deleteEmployee e req d
        = (deleted200, withoutEmployee o d)
        ∧ ∀ e' req', params req' !! "eid" = Some s →
            EmployeeController.getEmployeeById e' req' (withoutEmployee o d)
            = (notFound, withoutEmployee o d)))
  ∧ (query req !! "eid" = Some s →
     (employees d !! o = None →
      EmployeeControllerDoc.deleteEmployee e req d = (notFoundDoc, d))
     ∧ (∀ f, employees d !! o = Some f →
          EmployeeControllerDoc.deleteEmployee e req d
          = (deleted204, withoutEmployee o d)
          ∧ ∀ e' req', params req' !! "eid" = Some s →
              EmployeeControllerDoc.getEmployeeById e' req'
                (withoutEmployee o d)
              = (notFoundDoc, withoutEmployee o d)))
  ∧ users (withoutEmployee o d) = users d
  ∧ employees (withoutEmployee o d) !! o = None
  ∧ ∀ o', o' ≠ o →
      employees (withoutEmployee o d) !! o' = employees d !! o'.
Proof.
  intros Ho.
  assert (employees (withoutEmployee o d) !! o = None) as Hgone
    by apply lookup_delete_eq.
  repeat split.
  - by eapply deleteEmployee_absent.
  - by eapply deleteEmployee_present.
  - intros e' req' Hs'. by eapply getEmployeeById_absent.
  - by eapply deleteEmployee_doc_absent.
  - by eapply deleteEmployee_doc_present.
  - intros e' req' Hs'. by eapply getEmployeeById_doc_absent.
  - done.
  - intros o' Hne. by apply lookup_delete_ne.
Qed.

Lemma delete_not_found_or_removed_witness :
  EmployeeController.deleteEmployee Sample.env0
    (Sample.withParam Sample.idCarol (Sample.json_body [])) Sample.dbCarol
  = (deleted200, withoutEmployee 1 Sample.dbCarol).
Proof.
  destruct (delete_not_found_or_removed Sample.env0
              (Sample.withParam Sample.idCarol (Sample.json_body []))
              Sample.dbCarol Sample.idCarol 1 eq_refl) as [Hparams _].
  destruct (Hparams eq_refl) as [_ Hpresent].
  exact (proj1 (Hpresent Sample.carolFields eq_refl)).
Defined.

(** ** The route [DELETE /employees] *)


(** The same route with the controller that reads [req.query.eid]. *)
Lemma delete_route_with_query (e : env) (i : incoming) (d : db) s o f :
  inMethod i = DELETE →
  inPath i = ["employees"] →
  inQuery i !! "eid" = Some s →
  parseObjectId s = Some o →
  employees d !! o = Some f →
  ∃ h, dispatch (EmployeeRoutes.router withoutValidation) e i = Some h
       ∧ h d = (deleted204, withoutEmployee o d).
Proof.
  intros Hm Hp Hq Ho Hd. destruct i as [m p q b fl]. simpl in Hm, Hp, Hq.
  subst m p. eexists. split; [reflexivity|].
  by eapply deleteEmployee_doc_present.
Qed.


(** ** Create *)

Lemma save_cases M doc d :
  (∃ err, save M doc d = Thrown err d)
  ∨ (save M doc d
     = Next () (withCollection M (<[doc.1 := doc.2]> (collection M d)) d)
     ∧ firstInvalid M doc.2 = None
     ∧ collection M d !! doc.1 = None
     ∧ firstDuplicate M (collection M d) doc.1 doc.2 = None).
Proof.
  unfold save. destruct (firstInvalid M doc.2) as [p|]; [by eauto|].
  case_bool_decide as Hid; [by eauto|].
  destruct (firstDuplicate M (collection M d) doc.1 doc.2) as [p|];
    [by eauto|].
  right. repeat split. by apply eq_None_not_Some.
Qed.

Lemma createEmployee_cases e req d :
  EmployeeController.createEmployee e req d
  = if negb (allTruthy (body req)) then (allRequired, d)
    else if isSome (selectOne "email" (prop (body req) "email") (employees d))
    then (employeeExists, d)
    else
      let employee :=
        construct Employee e
          (EmployeeController.newEmployeeFields e req) in
      match save Employee employee d with
      | Next _ d' => (employeeCreated employee, d')
      | Replied r d' => (r, d')
      | Thrown err d' =>
          ({| status := 500;
              payload := EmployeeController.failure (message err) |}, d')
      end.
Proof.
  unfold EmployeeController.createEmployee, allTruthy, requiredFields.
  run_handler. cbn [forallb].
  destruct (truthy (prop (body req) "first_name")),
    (truthy (prop (body req) "last_name")),
    (truthy (prop (body req) "email")),
    (truthy (prop (body req) "position")),
    (truthy (prop (body req) "salary")),
    (truthy (prop (body req) "date_of_joining")),
    (truthy (prop (body req) "department")); try reflexivity.
  cbn [negb orb andb].
  destruct (selectOne "email" (prop (body req) "email") (employees d));
    cbn [isSome]; [reflexivity|].
  destruct (save Employee _ d); reflexivity.
Qed.

Lemma allTruthy_false (b : object) k :
  k ∈ requiredFields → truthy (prop b k) = false → allTruthy b = false.
Proof.
  intros Hk Hfalse. unfold allTruthy.
  apply not_true_is_false. intros Hall.
  rewrite forallb_forall in Hall.
  rewrite (Hall k) in Hfalse; [done|]. by apply list_elem_of_In.
Qed.

Lemma createEmployee_falsy e req d k :
  k ∈ requiredFields → truthy (prop (body req) k) = false →
  EmployeeController.createEmployee e req d = (allRequired, d).
Proof.
  intros Hk Hfalse. rewrite createEmployee_cases.
  by rewrite (allTruthy_false _ k Hk Hfalse).
Qed.

Lemma textFields_required k : k ∈ textFields → k ∈ requiredFields.
Proof.
  unfold textFields, requiredFields. rewrite !elem_of_cons, !elem_of_nil.
  tauto.
Qed.

(** C9: with every required field present in the body, a salary equal to 0
    or a required text field equal to the empty string is answered with
    status 400 and "All fields are required"; nothing is inserted. *)
Theorem create_rejects_zero_salary_and_empty_text
    (e : env) (req : request) (d : db) :
  (∀ k, k ∈ requiredFields → is_Some (body req !! k)) →
  body req !! "salary" = Some (VNum 0)
  ∨ (∃ k, k ∈ textFields ∧ body req !! k = Some (VStr "")) →
  EmployeeController.createEmployee e req d = (allRequired, d)
  ∧ field (payload allRequired) "message"
    = Some (VStr "All fields are required").
Proof.
  intros _ [Hsalary | (k & Hk & Htext)]; (split; [|reflexivity]).
  - apply (createEmployee_falsy e req d "salary").
    + unfold requiredFields. by repeat constructor.
    + unfold prop. by rewrite Hsalary.
  - apply (createEmployee_falsy e req d k).
    + by apply textFields_required.
    + unfold prop. by rewrite Htext.
Qed.

Lemma create_rejects_zero_salary_and_empty_text_witness :
  EmployeeController.createEmployee Sample.env0 Sample.daveUnpaid
    Sample.dbCarol
  = (allRequired, Sample.dbCarol).
Proof.
  apply create_rejects_zero_salary_and_empty_text.
  - intros k Hk. unfold requiredFields in Hk.
    repeat (apply elem_of_cons in Hk as [-> | Hk]; [by eexists|]).
    by apply elem_of_nil in Hk.
  - left. reflexivity.
Defined.

(** ** What the constructor keeps *)

Lemma strict_lookup M (o : object) k v :
  o !! k = Some v → hasPath M k = true → v ≠ VUndefined →
  strict M o !! k = Some v.
Proof. intros Ho Hp Hv. unfold strict. by apply map_lookup_filter_Some_2. Qed.

Lemma strict_lookup_None M (o : object) k :
  o !! k = None → strict M o !! k = None.
Proof.
  intros Ho. unfold strict. apply map_lookup_filter_None. left. done.
Qed.

Lemma strict_lookup_inv M (o : object) k v :
  strict M o !! k = Some v → o !! k = Some v.
Proof. unfold strict. intros H. by apply map_lookup_filter_Some in H as [? _]. Qed.

Lemma defaults_lookup (l : list path) t (o : object) k :
  (∀ p, p ∈ l → pdefaultNow p = true → pname p ≠ k) →
  foldr (λ p acc,
           if pdefaultNow p && bool_decide (acc !! pname p = None)
           then <[pname p := VDate t]> acc else acc) o l !! k
  = o !! k.
Proof.
  induction l as [|p l IH]; intros Hl; [done|]. cbn [foldr].
  assert (∀ q, q ∈ l → pdefaultNow q = true → pname q ≠ k) as Hl'.
  { intros q Hq. apply Hl. by right. }
  destruct (pdefaultNow p) eqn:Hp; cbn [andb]; [|by apply IH].
  case_bool_decide; [|by apply IH].
  rewrite lookup_insert_ne; [by apply IH|]. apply Hl; [by left|done].
Qed.

Lemma applyDefaults_lookup M t (o : object) k :
  (∀ p, p ∈ schema M → pdefaultNow p = true → pname p ≠ k) →
  applyDefaults M t o !! k = o !! k.
Proof. apply defaults_lookup. Qed.

(** The paths with a default are the two timestamps. *)
Lemma employee_defaults k :
  k ≠ "created_at" → k ≠ "updated_at" →
  ∀ p, p ∈ employeeSchema → pdefaultNow p = true → pname p ≠ k.
Proof.
  intros Hc Hu p Hp Hd. unfold employeeSchema in Hp.
  repeat (apply elem_of_cons in Hp as [-> | Hp];
          [first [discriminate Hd | by cbn; congruence]|]).
  by apply elem_of_nil in Hp.
Qed.

Lemma construct_lookup e (o : object) k :
  k ≠ "created_at" → k ≠ "updated_at" →
  (construct Employee e o).2 !! k = strict Employee o !! k.
Proof.
  intros Hc Hu. unfold construct. cbn [snd].
  apply applyDefaults_lookup. by apply employee_defaults.
Qed.

Lemma strict_no_path M (o : object) k :
  hasPath M k = false → strict M o !! k = None.
Proof.
  intros Hp. unfold strict. apply map_lookup_filter_None. right.
  intros v Hv [Hhas _]. cbn in Hhas. congruence.
Qed.

(** The Employee schema has no path [profileImageUrl]: no document that
    the model builds has the field. *)
Lemma constructed_image e (o : object) :
  (construct Employee e o).2 !! "profileImageUrl" = None.
Proof. rewrite construct_lookup by done. by apply strict_no_path. Qed.

Lemma newEmployeeFields_image e req :
  EmployeeController.newEmployeeFields e req !! "profileImageUrl"
  = Some (match file req with
          | Some f => uploadPath f
          | None => VNull
          end).
Proof.
  unfold EmployeeController.newEmployeeFields, uploadPath.
  by destruct (file req).
Qed.

Lemma employeeCreated_image doc :
  field (payload (employeeCreated doc)) "profileImageUrl"
  = Some (prop doc.2 "profileImageUrl").
Proof. reflexivity. Qed.

(** ** What the model builds *)

Lemma defaults_keep (l : list path) t (o : object) k v :
  o !! k = Some v →
  foldr (λ p acc,
           if pdefaultNow p && bool_decide (acc !! pname p = None)
           then <[pname p := VDate t]> acc else acc) o l !! k
  = Some v.
Proof.
  intros Ho. induction l as [|p l IH]; [done|]. cbn [foldr].
  destruct (pdefaultNow p); cbn [andb]; [|done].
  case_bool_decide as Hnone; [|done].
  rewrite lookup_insert_ne; [done|]. intros Heq. rewrite Heq in Hnone.
  congruence.
Qed.

Lemma construct_keeps M e (o : object) k v :
  o !! k = Some v → hasPath M k = true → v ≠ VUndefined →
  (construct M e o).2 !! k = Some v.
Proof.
  intros Ho Hp Hv. unfold construct, applyDefaults. cbn [snd].
  apply defaults_keep. by apply strict_lookup.
Qed.

(** Every field of a document that the model builds is a path of the
    schema. *)
Lemma defaults_paths M (l : list path) t (o : object) k :
  (∀ p, p ∈ l → hasPath M (pname p) = true) →
  is_Some
    (foldr (λ p acc,
              if pdefaultNow p && bool_decide (acc !! pname p = None)
              then <[pname p := VDate t]> acc else acc) o l !! k) →
  is_Some (o !! k) ∨ hasPath M k = true.
Proof.
  induction l as [|p l IH]; intros Hl; [by left|]. cbn [foldr].
  assert (∀ q, q ∈ l → hasPath M (pname q) = true) as Hl'.
  { intros q Hq. apply Hl. by right. }
  destruct (pdefaultNow p); cbn [andb]; [|by apply IH].
  case_bool_decide; [|by apply IH].
  destruct (decide (pname p = k)) as [<- | Hne].
  - intros _. right. apply Hl. by left.
  - rewrite lookup_insert_ne by done. by apply IH.
Qed.

Lemma hasPath_schema M p : p ∈ schema M → hasPath M (pname p) = true.
Proof.
  intros Hp. unfold hasPath. apply existsb_exists. exists p.
  split; [by apply list_elem_of_In | apply String.eqb_refl].
Qed.

Lemma construct_paths M e (o : object) k :
  is_Some ((construct M e o).2 !! k) → hasPath M k = true.
Proof.
  unfold construct, applyDefaults. cbn [snd]. intros Hk.
  destruct (defaults_paths M (schema M) (now e) (strict M o) k) as [[v Hv] | Hp];
    [apply hasPath_schema|done| |done].
  unfold strict in Hv. by apply map_lookup_filter_Some in Hv as [_ [Hp _]].
Qed.

Lemma truthy_defined v : truthy v = true → isNullish v = false.
Proof. by destruct v. Qed.

Lemma allTruthy_field (b : object) k :
  allTruthy b = true → k ∈ requiredFields → truthy (prop b k) = true.
Proof.
  unfold allTruthy. rewrite forallb_forall. intros Hall Hk.
  apply Hall. by apply list_elem_of_In.
Qed.

Lemma newEmployeeFields_required e req k :
  k ∈ requiredFields →
  EmployeeController.newEmployeeFields e req !! k = Some (prop (body req) k).
Proof.
  intros Hk. unfold requiredFields in Hk.
  repeat (apply elem_of_cons in Hk as [-> | Hk]; [reflexivity|]).
  by apply elem_of_nil in Hk.
Qed.

Lemma constructed_required e req k :
  allTruthy (body req) = true → k ∈ requiredFields →
  (construct Employee e
     (EmployeeController.newEmployeeFields e req)).2 !! k
  = Some (prop (body req) k).
Proof.
  intros Hall Hk. apply construct_keeps.
  - by apply newEmployeeFields_required.
  - unfold requiredFields in Hk.
    repeat (apply elem_of_cons in Hk as [-> | Hk]; [reflexivity|]).
    by apply elem_of_nil in Hk.
  - pose proof (allTruthy_field _ k Hall Hk) as Ht. by intros Heq; rewrite Heq in Ht.
Qed.

Lemma requiredOk_truthy p (o : object) :
  truthy (prop o (pname p)) = true → requiredOk p o = true.
Proof.
  intros Ht. unfold requiredOk. destruct (prequired p); [|done]. cbn.
  destruct (prop o (pname p)) as [| | | |s| |]; try done.
  by destruct (ptype p).
Qed.

Lemma created_valid e req :
  allTruthy (body req) = true →
  firstInvalid Employee
    (construct Employee e
       (EmployeeController.newEmployeeFields e req)).2 = None.
Proof.
  intros Hall. unfold firstInvalid. apply find_all_false.
  intros p Hp. apply negb_false_iff.
  cbn in Hp. unfold employeeSchema in Hp.
  repeat (apply elem_of_cons in Hp as [-> | Hp];
          [first
             [ reflexivity
             | apply requiredOk_truthy; cbn [pname required requiredUnique];
               unfold prop at 1;
               rewrite constructed_required
                 by (done || (unfold requiredFields; by repeat constructor));
               apply allTruthy_field;
               [done | unfold requiredFields; by repeat constructor] ]|]).
  by apply elem_of_nil in Hp.
Qed.

Lemma created_not_duplicate e req d :
  allTruthy (body req) = true →
  selectOne "email" (prop (body req) "email") (employees d) = None →
  firstDuplicate Employee (employees d) (newId e)
    (construct Employee e
       (EmployeeController.newEmployeeFields e req)).2 = None.
Proof.
  intros Hall Hnone.
  assert ("email" ∈ requiredFields) as Hmail
    by (unfold requiredFields; by repeat constructor).
  pose proof (allTruthy_field _ _ Hall Hmail) as Ht.
  unfold firstDuplicate. apply find_all_false. intros p Hp.
  destruct (punique p) eqn:Hu; [|done]. cbn [andb].
  assert (pname p = "email") as ->.
  { cbn in Hp. unfold employeeSchema in Hp.
    repeat (apply elem_of_cons in Hp as [-> | Hp];
            [first [discriminate Hu | reflexivity]|]).
    by apply elem_of_nil in Hp. }
  apply keyTaken_unused. intros i f Hf.
  rewrite selectOne_None in Hnone. specialize (Hnone i f Hf).
  unfold fieldKey at 2. rewrite (constructed_required e req "email") by done.
  unfold filterValue in Hnone. rewrite (truthy_defined _ Ht) in Hnone.
  destruct (prop (body req) "email"); done.
Qed.

Lemma createEmployee_stores e req d :
  allTruthy (body req) = true →
  selectOne "email" (prop (body req) "email") (employees d) = None →
  employees d !! newId e = None →
  EmployeeController.createEmployee e req d
  = (employeeCreated
       (construct Employee e
          (EmployeeController.newEmployeeFields e req)),
     withEmployee (newId e)
       (construct Employee e
          (EmployeeController.newEmployeeFields e req)).2 d).
Proof.
  intros Hall Hnone Hfresh.
  rewrite createEmployee_cases, Hall, Hnone. cbn [negb isSome]. cbv zeta.
  rewrite save_ok; [reflexivity| | |].
  - by apply created_valid.
  - exact Hfresh.
  - by apply created_not_duplicate.
Qed.

Lemma typedBody_frank : typedBody (body Sample.frank).
Proof.
  split; [|split].
  - intros k Hk. unfold textFields in Hk.
    repeat (apply elem_of_cons in Hk as [-> | Hk]; [by eexists|]).
    by apply elem_of_nil in Hk.
  - by eexists.
  - eexists. split; [reflexivity|]. lia.
Qed.

(** C10, where the code leaves it: without a file, the object that
    [createEmployee] hands to [new Employee] has the field
    [profileImageUrl] with the value [null]; the Employee schema has no
    path of that name, so the document built from the object does not have
    the field.  A creation without a file that goes through (required
    fields of the declared types and truthy, an email that no employee has,
    a new ObjectId) is answered with status 201, the stored document has no
    field [profileImageUrl], and the response carries [undefined] for it,
    not [null]. *)
Theorem create_without_file_drops_image
    (e : env) (req : request) (d : db) :
  file req = None →
  EmployeeController.newEmployeeFields e req !! "profileImageUrl" = Some VNull
  ∧ hasPath Employee "profileImageUrl" = false
  ∧ (construct Employee e
       (EmployeeController.newEmployeeFields e req)).2 !! "profileImageUrl"
    = None
  ∧ (typedBody (body req) →
     allTruthy (body req) = true →
     selectOne "email" (prop (body req) "email") (employees d) = None →
     employees d !! newId e = None →
     ∃ fields,
       EmployeeController.createEmployee e req d
       = (employeeCreated (newId e, fields), withEmployee (newId e) fields d)
       ∧ fields !! "profileImageUrl" = None
       ∧ imagePath (withEmployee (newId e) fields d) (newId e) = None
       ∧ field (payload (employeeCreated (newId e, fields))) "profileImageUrl"
         = Some VUndefined).
Proof.
  intros Hfile.
  split; [by rewrite newEmployeeFields_image, Hfile|].
  split; [reflexivity|].
  split; [apply constructed_image|].
  intros _ Hall Hnone Hfresh.
  exists (construct Employee e
            (EmployeeController.newEmployeeFields e req)).2.
  split; [by apply createEmployee_stores|].
  split; [apply constructed_image|].
  split.
  - unfold imagePath, withEmployee. cbn [employees].
    rewrite lookup_insert_eq. cbn [mbind option_bind].
    apply constructed_image.
  - rewrite employeeCreated_image. cbn [snd]. unfold prop.
    by rewrite constructed_image.
Qed.

Lemma create_without_file_drops_image_witness :
  ∃ fields,
    EmployeeController.createEmployee Sample.env2 Sample.frank Sample.dbCarol
    = (employeeCreated (2%N, fields), withEmployee 2 fields Sample.dbCarol)
    ∧ fields !! "profileImageUrl" = None.
Proof.
  destruct (create_without_file_drops_image Sample.env2 Sample.frank
              Sample.dbCarol eq_refl) as (_ & _ & _ & Hcreate).
  destruct Hcreate as (fields & Hreply & Hnone & _).
  - apply typedBody_frank.
  - vm_compute. reflexivity.
  - vm_compute. reflexivity.
  - reflexivity.
  - exists fields. split; assumption.
Defined.

(** A creation without a file that goes through. *)
Example create_without_file :
  (EmployeeController.createEmployee Sample.env0 Sample.dave
     Sample.emptyDb).1
  = {| status := 201;
       payload := Obj [("message", VStr "Employee created successfully.");
                       ("employee_id", VId 1);
                       ("profileImageUrl", VUndefined)] |}.
Proof. vm_compute. reflexivity. Qed.

(** ** Create: missing fields and duplicate emails *)

Lemma createEmployee_missing e req d k :
  k ∈ requiredFields → body req !! k = None →
  EmployeeController.createEmployee e req d = (allRequired, d).
Proof.
  intros Hk Hnone. apply (createEmployee_falsy e req d k Hk).
  unfold prop. by rewrite Hnone.
Qed.

Lemma createEmployee_duplicate e req d i f mail :
  employees d !! i = Some f →
  f !! "email" = Some (VStr mail) →
  body req !! "email" = Some (VStr mail) →
  status (EmployeeController.createEmployee e req d).1 = 400
  ∧ (EmployeeController.createEmployee e req d).2 = d.
Proof.
  intros Hi Hf Hm. rewrite createEmployee_cases.
  destruct (negb (allTruthy (body req))); [done|].
  assert (prop (body req) "email" = VStr mail) as ->
    by (unfold prop; by rewrite Hm).
  destruct (selectOne_found "email" (VStr mail) (employees d) i f Hi)
    as [u ->]; [by unfold fieldKey; rewrite Hf|].
  done.
Qed.

Lemma createEmployee_doc_cases e req d :
  EmployeeControllerDoc.createEmployee e req d
  = let employee :=
      construct Employee e
        (<["updated_at" := VDate (now e)]>
           (<["created_at" := VDate (now e)]> (body req))) in
    match save Employee employee d with
    | Next _ d' =>
        ({| status := 201;
            payload := Obj [("message", VStr "Employee created successfully.");
                            ("employee_id", VId employee.1)] |}, d')
    | Replied r d' => (r, d')
    | Thrown err d' =>
        ({| status := 500; payload := Obj [("message", VStr (message err))] |},
         d')
    end.
Proof.
  unfold EmployeeControllerDoc.createEmployee. run_handler. cbv zeta.
  destruct (save Employee _ d); reflexivity.
Qed.

Lemma firstInvalid_Some M (o : object) p :
  p ∈ schema M → requiredOk p o = false → is_Some (firstInvalid M o).
Proof.
  intros Hp Hbad. unfold firstInvalid.
  destruct (List.find _ (schema M)) as [q|] eqn:Hfind; [by eexists|].
  apply list_elem_of_In in Hp.
  pose proof (find_none _ _ Hfind p Hp) as Hok. cbn in Hok.
  by rewrite Hbad in Hok.
Qed.

Lemma firstDuplicate_Some M (c : gmap N object) self (o : object) p :
  p ∈ schema M → punique p = true → keyTaken c self (pname p) o →
  is_Some (firstDuplicate M c self o).
Proof.
  intros Hp Hu Htaken. unfold firstDuplicate.
  destruct (List.find _ (schema M)) as [q|] eqn:Hfind; [by eexists|].
  apply list_elem_of_In in Hp.
  pose proof (find_none _ _ Hfind p Hp) as Hok. cbn in Hok.
  rewrite Hu, bool_decide_eq_true_2 in Hok; done.
Qed.

(** Each required field has a required path in the schema. *)
Lemma required_path k :
  k ∈ requiredFields →
  ∃ p, p ∈ employeeSchema ∧ pname p = k ∧ prequired p = true.
Proof.
  intros Hk. unfold requiredFields in Hk.
  repeat (apply elem_of_cons in Hk as [-> | Hk];
          [eexists; split; [by repeat constructor | done]|]).
  by apply elem_of_nil in Hk.
Qed.

Lemma required_not_timestamp k :
  k ∈ requiredFields → k ≠ "created_at" ∧ k ≠ "updated_at".
Proof.
  intros Hk. unfold requiredFields in Hk.
  repeat (apply elem_of_cons in Hk as [-> | Hk]; [done|]).
  by apply elem_of_nil in Hk.
Qed.

Lemma createEmployee_doc_missing e req d k :
  k ∈ requiredFields → body req !! k = None →
  status (EmployeeControllerDoc.createEmployee e req d).1 = 500
  ∧ (EmployeeControllerDoc.createEmployee e req d).2 = d.
Proof.
  intros Hk Hnone. rewrite createEmployee_doc_cases. cbv zeta.
  destruct (required_not_timestamp k Hk) as [Hc Hu].
  destruct (required_path k Hk) as (p & Hp & Hname & Hreq).
  match goal with |- context [save Employee ?doc d] => set (employee := doc) end.
  assert (employee.2 !! k = None) as Hgone.
  { unfold employee. rewrite construct_lookup by done.
    apply strict_lookup_None. by rewrite !lookup_insert_ne. }
  destruct (firstInvalid_Some Employee employee.2 p Hp) as [q Hq].
  { unfold requiredOk, prop. rewrite Hreq, Hname, Hgone. reflexivity. }
  unfold save. rewrite Hq. done.
Qed.

Lemma createEmployee_doc_duplicate e req d i f mail :
  employees d !! i = Some f →
  f !! "email" = Some (VStr mail) →
  body req !! "email" = Some (VStr mail) →
  status (EmployeeControllerDoc.createEmployee e req d).1 = 500
  ∧ (EmployeeControllerDoc.createEmployee e req d).2 = d.
Proof.
  intros Hi Hf Hm. rewrite createEmployee_doc_cases. cbv zeta.
  match goal with |- context [save Employee ?doc d] => set (employee := doc) end.
  destruct (save_cases Employee employee d)
    as [[err ->] | (_ & _ & Hfresh & Hdup)]; [done|].
  exfalso.
  assert (employee.2 !! "email" = Some (VStr mail)) as Hmail.
  { unfold employee. rewrite construct_lookup by done.
    apply strict_lookup; [by rewrite !lookup_insert_ne|done|done]. }
  destruct (firstDuplicate_Some Employee (employees d) employee.1 employee.2
              (requiredUnique "email" SString)) as [q Hq].
  - cbn. by repeat constructor.
  - done.
  - exists i, f. split; [done|]. split.
    + intros Heq. change (employees d !! employee.1 = None) in Hfresh.
      rewrite Heq in Hi. congruence.
    + cbn [pname requiredUnique]. unfold fieldKey. by rewrite Hf, Hmail.
  - change (firstDuplicate Employee (employees d) employee.1 employee.2
            = None) in Hdup.
    by rewrite Hq in Hdup.
Qed.

(** C3, as the code has it: in the controller with uploads a creation that
    lacks a required field, or whose email is the email of a stored
    employee, is answered with status 400; in the controller without
    validation both are answered with status 500, by the [required]
    validators and the unique index of the model; in all four cases the
    database is left as it was. *)
Theorem create_missing_or_duplicate (e : env) (req : request) (d : db) :
  (∀ k, k ∈ requiredFields → body req !! k = None →
     EmployeeController.createEmployee e req d = (allRequired, d)
     ∧ status (EmployeeControllerDoc.createEmployee e req d).1 = 500
     ∧ (EmployeeControllerDoc.createEmployee e req d).2 = d)
  ∧ (∀ i f mail,
       employees d !! i = Some f →
       f !! "email" = Some (VStr mail) →
       body req !! "email" = Some (VStr mail) →
       status (EmployeeController.createEmployee e req d).1 = 400
       ∧ (EmployeeController.createEmployee e req d).2 = d
       ∧ status (EmployeeControllerDoc.createEmployee e req d).1 = 500
       ∧ (EmployeeControllerDoc.createEmployee e req d).2 = d).
Proof.
  split.
  - intros k Hk Hnone. split; [by apply (createEmployee_missing e req d k)|].
    by apply (createEmployee_doc_missing e req d k).
  - intros i f mail Hi Hf Hm.
    destruct (createEmployee_duplicate e req d i f mail Hi Hf Hm).
    destruct (createEmployee_doc_duplicate e req d i f mail Hi Hf Hm).
    done.
Qed.

Lemma create_missing_or_duplicate_witness :
  EmployeeController.createEmployee Sample.env0 (Sample.json_body [])
    Sample.dbCarol
  = (allRequired, Sample.dbCarol).
Proof.
  destruct (create_missing_or_duplicate Sample.env0 (Sample.json_body [])
              Sample.dbCarol) as [Hmissing _].
  refine (proj1 (Hmissing "salary" _ eq_refl)).
  unfold requiredFields. by repeat constructor.
Defined.

(** The controller without validation answers a creation that lacks every
    field with status 500, not 400. *)
Lemma create_missing_field_answered_500 :
  body (Sample.json_body []) !! "first_name" = None
  ∧ status (EmployeeControllerDoc.createEmployee Sample.env0
              (Sample.json_body []) Sample.emptyDb).1 ≠ 400.
Proof. split; [reflexivity|]. vm_compute. discriminate. Qed.

(** ** Update *)

Lemma merged_lookup M (upd f : object) k :
  (strict M upd ∪ f) !! k
  = match upd !! k with
    | Some v =>
        if decide (hasPath M k = true ∧ v ≠ VUndefined) then Some v
        else f !! k
    | None => f !! k
    end.
Proof.
  rewrite lookup_union. destruct (upd !! k) as [v|] eqn:Hupd.
  - case_decide as Hkeep.
    + destruct Hkeep as [Hp Hv]. rewrite (strict_lookup M upd k v Hupd Hp Hv).
      by destruct (f !! k).
    + assert (strict M upd !! k = None) as ->.
      { apply map_lookup_filter_None. right.
        intros v' Hv' Hkeep'. cbn in Hkeep'. apply Hkeep. congruence. }
      by destruct (f !! k).
  - rewrite (strict_lookup_None M upd k Hupd). by destruct (f !! k).
Qed.

Lemma findByIdAndUpdate_cast M id upd d s o :
  id = VStr s ∧ parseObjectId s = Some o ∨ id = VId o →
  findByIdAndUpdate M id upd d
  = match firstBadOperator upd with
    | Some op => Thrown (InvalidUpdate op) d
    | None =>
        match collection M d !! o with
        | None => Next None d
        | Some f =>
            match firstDuplicate M (collection M d) o (strict M upd ∪ f) with
            | Some p => Thrown (DuplicateKey (modelName M) (pname p)) d
            | None =>
                Next (Some (o, strict M upd ∪ f))
                  (withCollection M
                     (<[o := strict M upd ∪ f]> (collection M d)) d)
            end
        end
    end.
Proof.
  intros [[-> Ho] | ->]; run_handler; rewrite ?Ho;
    by destruct (firstBadOperator upd).
Qed.

Lemma findByIdAndUpdate_cases M id upd d :
  (∃ err, findByIdAndUpdate M id upd d = Thrown err d)
  ∨ findByIdAndUpdate M id upd d = Next None d
  ∨ ∃ s o f,
      (id = VStr s ∧ parseObjectId s = Some o ∨ id = VId o)
      ∧ firstBadOperator upd = None
      ∧ collection M d !! o = Some f
      ∧ firstDuplicate M (collection M d) o (strict M upd ∪ f) = None
      ∧ findByIdAndUpdate M id upd d
        = Next (Some (o, strict M upd ∪ f))
            (withCollection M (<[o := strict M upd ∪ f]> (collection M d)) d).
Proof.
  assert (∀ s o,
            id = VStr s ∧ parseObjectId s = Some o ∨ id = VId o →
            (∃ err, findByIdAndUpdate M id upd d = Thrown err d)
            ∨ findByIdAndUpdate M id upd d = Next None d
            ∨ ∃ s o f,
                (id = VStr s ∧ parseObjectId s = Some o ∨ id = VId o)
                ∧ firstBadOperator upd = None
                ∧ collection M d !! o = Some f
                ∧ firstDuplicate M (collection M d) o (strict M upd ∪ f) = None
                ∧ findByIdAndUpdate M id upd d
                  = Next (Some (o, strict M upd ∪ f))
                      (withCollection M
                         (<[o := strict M upd ∪ f]> (collection M d)) d))
    as Hstep.
  { intros s o Hid. rewrite (findByIdAndUpdate_cast M id upd d s o Hid).
    destruct (firstBadOperator upd) as [op|] eqn:Hop; [left; by eexists|].
    destruct (collection M d !! o) as [f|] eqn:Hf; [|by right; left].
    destruct (firstDuplicate M (collection M d) o (strict M upd ∪ f))
      as [p|] eqn:Hdup; [left; by eexists|].
    right; right. by exists s, o, f. }
  destruct id as [| | | |s| |o].
  1-4,6: run_handler; destruct (firstBadOperator upd); eauto.
  - destruct (parseObjectId s) as [o|] eqn:Ho; [by apply (Hstep s o); left|].
    left. run_handler. rewrite Ho. by eexists.
  - apply (Hstep "" o). by right.
Qed.

Lemma updateEmployee_cases e req d :
  (EmployeeController.updateEmployee e req d).2 = d
  ∧ status (EmployeeController.updateEmployee e req d).1 ≠ 200
  ∨ ∃ s o f,
      params req !! "eid" = Some s
      ∧ parseObjectId s = Some o
      ∧ employees d !! o = Some f
      ∧ firstBadOperator (EmployeeController.updatedData e req) = None
      ∧ firstDuplicate Employee (employees d) o
          (strict Employee (EmployeeController.updatedData e req) ∪ f) = None
      ∧ EmployeeController.updateEmployee e req d
        = (updated200,
           withEmployee o
             (strict Employee (EmployeeController.updatedData e req) ∪ f) d).
Proof.
  unfold EmployeeController.updateEmployee, tryCatch.
  unfold mbind, handler_bind, when, reply, mret, handler_ret.
  destruct (findByIdAndUpdate_cases Employee (param (params req) "eid")
              (EmployeeController.updatedData e req) d)
    as [[err ->] | [-> | (s & o & f & Hid & Hop & Hf & Hdup & ->)]];
    [by left | by left |].
  right. exists s, o, f. unfold param in Hid.
  destruct (params req !! "eid") as [s'|];
    [|by destruct Hid as [[? _] | ?]].
  destruct Hid as [[[= ->] Ho] | [=]]. done.
Qed.

Lemma updateEmployee_doc_cases e req d :
  (EmployeeControllerDoc.updateEmployee e req d).2 = d
  ∧ status (EmployeeControllerDoc.updateEmployee e req d).1 ≠ 200
  ∨ ∃ s o f,
      params req !! "eid" = Some s
      ∧ parseObjectId s = Some o
      ∧ employees d !! o = Some f
      ∧ EmployeeControllerDoc.updateEmployee e req d
        = (updated200Doc,
           withEmployee o
             (strict Employee (<["updated_at" := VDate (now e)]> (body req))
              ∪ f) d).
Proof.
  unfold EmployeeControllerDoc.updateEmployee, tryCatch.
  unfold mbind, handler_bind, when, reply, mret, handler_ret.
  destruct (findByIdAndUpdate_cases Employee (param (params req) "eid")
              (<["updated_at" := VDate (now e)]> (body req)) d)
    as [[err ->] | [-> | (s & o & f & Hid & Hop & Hf & Hdup & ->)]];
    [by left | by left |].
  right. exists s, o, f. unfold param in Hid.
  destruct (params req !! "eid") as [s'|];
    [|by destruct Hid as [[? _] | ?]].
  destruct Hid as [[[= ->] Ho] | [=]]. done.
Qed.

Lemma uploads_truthy name : truthy (VStr ("/uploads/" +:+ name)) = true.
Proof. reflexivity. Qed.

Lemma updatedData_image_file e req f :
  file req = Some f →
  EmployeeController.updatedData e req !! "profileImageUrl"
  = Some (uploadPath f).
Proof.
  intros Hfile. unfold EmployeeController.updatedData. rewrite Hfile.
  rewrite uploads_truthy. apply lookup_insert_eq.
Qed.

Lemma updatedData_other e req k :
  k ≠ "updated_at" → k ≠ "profileImageUrl" →
  EmployeeController.updatedData e req !! k = body req !! k.
Proof.
  intros Hu Himg. unfold EmployeeController.updatedData.
  destruct (file req) as [f|].
  - rewrite uploads_truthy. by rewrite !lookup_insert_ne.
  - cbn [truthy]. by rewrite lookup_insert_ne.
Qed.

Lemma updatedData_updated_at e req :
  EmployeeController.updatedData e req !! "updated_at" = Some (VDate (now e)).
Proof.
  unfold EmployeeController.updatedData. destruct (file req) as [f|].
  - rewrite uploads_truthy. rewrite lookup_insert_ne by done.
    apply lookup_insert_eq.
  - cbn [truthy]. apply lookup_insert_eq.
Qed.

Lemma firstBadOperator_None (upd : object) :
  (∀ k, isOperator k = true → upd !! k = None) → firstBadOperator upd = None.
Proof.
  intros Hno. unfold firstBadOperator. rewrite find_all_false; [done|].
  intros [k v] Hkv. apply elem_of_map_to_list in Hkv.
  unfold badOperator. cbn [fst snd].
  destruct (isOperator k) eqn:Hop; [|done].
  rewrite (Hno k Hop) in Hkv. done.
Qed.

Lemma updatedData_operators e req :
  body req = ∅ →
  firstBadOperator (EmployeeController.updatedData e req) = None.
Proof.
  intros Hbody. apply firstBadOperator_None. intros k Hop.
  rewrite updatedData_other, Hbody; [apply lookup_empty| |]; by intros ->.
Qed.

(** An update that does not carry an email passes the unique index when
    the emails are distinct. *)
Lemma kept_email_not_duplicate (c : gmap N object) o (f upd : object) :
  uniqueEmails c → c !! o = Some f → upd !! "email" = None →
  firstDuplicate Employee c o (strict Employee upd ∪ f) = None.
Proof.
  intros Hc Hf Hupd. unfold firstDuplicate. apply find_all_false.
  intros p Hp. destruct (punique p) eqn:Hu; [|done]. cbn [andb].
  assert (pname p = "email") as ->.
  { cbn in Hp. unfold employeeSchema in Hp.
    repeat (apply elem_of_cons in Hp as [-> | Hp];
            [first [discriminate Hu | reflexivity]|]).
    by apply elem_of_nil in Hp. }
  apply bool_decide_eq_false. intros (i & g & Hi & Hne & Hk).
  apply Hne. apply (Hc i o g f Hi Hf). rewrite Hk.
  unfold fieldKey. by rewrite merged_lookup, Hupd.
Qed.

Lemma updateEmployee_ok e req d s o f :
  params req !! "eid" = Some s → parseObjectId s = Some o →
  employees d !! o = Some f →
  firstBadOperator (EmployeeController.updatedData e req) = None →
  firstDuplicate Employee (employees d) o
    (strict Employee (EmployeeController.updatedData e req) ∪ f) = None →
  EmployeeController.updateEmployee e req d
  = (updated200,
     withEmployee o
       (strict Employee (EmployeeController.updatedData e req) ∪ f) d).
Proof.
  intros Hs Ho Hf Hop Hdup.
  unfold EmployeeController.updateEmployee, tryCatch, param. rewrite Hs.
  unfold mbind, handler_bind, when, reply, mret, handler_ret.
  rewrite (findByIdAndUpdate_cast Employee _ _ d s o) by (left; done).
  rewrite Hop. cbn [collection Employee]. rewrite Hf, Hdup. reflexivity.
Qed.

(** The image path of an employee after an update that went through: the
    schema has no path [profileImageUrl], and the update leaves the
    field as it was. *)
Lemma imagePath_updated o (f upd : object) d o' :
  employees d !! o = Some f →
  imagePath (withEmployee o (strict Employee upd ∪ f) d) o' = imagePath d o'.
Proof.
  intros Hf. unfold imagePath, withEmployee. cbn [employees].
  destruct (decide (o = o')) as [<- | Hne].
  - rewrite lookup_insert_eq, Hf. cbn [mbind option_bind].
    rewrite merged_lookup. destruct (upd !! "profileImageUrl"); [|done].
    rewrite decide_False; [done|]. by intros [? _].
  - by rewrite lookup_insert_ne.
Qed.

Lemma imagePath_target d o (f : object) :
  employees d !! o = Some f → imagePath d o = f !! "profileImageUrl".
Proof. intros Hf. unfold imagePath. by rewrite Hf. Qed.

(** C5, where the code leaves it: [updateEmployee] puts the path of an
    uploaded file into the update as [profileImageUrl], but the Employee
    schema has no path of that name, and the model drops the field.  An
    update that uploads a file for a stored employee and has no field in
    its body, on employees with distinct emails, is answered with status
    200 and leaves the stored image path of its target as it was: the path
    is not replaced by the path of the file.  No update of a body of scalar
    fields, with or without a file, changes the stored image path of any
    employee. *)
Theorem update_with_file_keeps_image_path
    (e : env) (req : request) (d : db) :
  (∀ o, imagePath (EmployeeController.updateEmployee e req d).2 o
        = imagePath d o)
  ∧ (∀ s o f fl,
       params req !! "eid" = Some s →
       parseObjectId s = Some o →
       employees d !! o = Some f →
       file req = Some fl →
       body req = ∅ →
       uniqueEmails (employees d) →
       EmployeeController.updatedData e req !! "profileImageUrl"
       = Some (uploadPath fl)
       ∧ hasPath Employee "profileImageUrl" = false
       ∧ (EmployeeController.updateEmployee e req d).1 = updated200
       ∧ imagePath (EmployeeController.updateEmployee e req d).2 o
         = f !! "profileImageUrl").
Proof.
  split.
  - intros o'.
    destruct (updateEmployee_cases e req d)
      as [[-> _] | (s & o & f & _ & _ & Hf & _ & _ & ->)]; [done|].
    cbn [snd]. by apply imagePath_updated.
  - intros s o f fl Hs Ho Hf Hfile Hbody Huniq.
    assert (body req !! "email" = None) as Hmail
      by (rewrite Hbody; apply lookup_empty).
    split; [by apply updatedData_image_file|]. split; [reflexivity|].
    rewrite (updateEmployee_ok e req d s o f Hs Ho Hf).
    + cbn [fst snd]. split; [reflexivity|].
      rewrite imagePath_updated by done. by apply imagePath_target.
    + by apply updatedData_operators.
    + apply kept_email_not_duplicate; [done|done|].
      by rewrite updatedData_other.
Qed.

Lemma update_with_file_keeps_image_path_witness :
  (EmployeeController.updateEmployee Sample.env0
     (Sample.withFile "new.png"
        (Sample.withParam Sample.idCarol (Sample.json_body [])))
     Sample.dbCarol).1
  = updated200
  ∧ imagePath
      (EmployeeController.updateEmployee Sample.env0
         (Sample.withFile "new.png"
            (Sample.withParam Sample.idCarol (Sample.json_body [])))
         Sample.dbCarol).2 1
    = None.
Proof.
  destruct (update_with_file_keeps_image_path Sample.env0
              (Sample.withFile "new.png"
                 (Sample.withParam Sample.idCarol (Sample.json_body [])))
              Sample.dbCarol) as [_ Hfile].
  destruct (Hfile Sample.idCarol 1%N Sample.carolFields
              {| filename := "new.png" |})
    as (_ & _ & Hreply & Hpath).
  1-5: reflexivity.
  - apply uniqueEmails_singleton.
  - split; [exact Hreply | exact Hpath].
Defined.

(** ** Search *)





Lemma searchFilter_lookup req k :
  EmployeeController.searchFilter req !! k
  = if decide (k = "position") then supplied req "position"
    else if decide (k = "department") then supplied req "department"
    else None.
Proof.
  unfold EmployeeController.searchFilter, supplied.
  destruct (query req !! "position") as [pos|];
    destruct (query req !! "department") as [dep|];
    repeat (match goal with
            | |- context [truthy ?v] => destruct (truthy v)
            end);
    repeat case_decide; subst;
    rewrite ?lookup_insert_eq, ?lookup_insert_ne, ?lookup_empty by done;
    done.
Qed.

Section Search.
Context {regex : RegexEngine}.







End Search.

Section SearchClaim.
Context {regex : RegexEngine}.

End SearchClaim.



(** ** The test route *)

Lemma test_saves e req d :
  (∀ i f, users d !! i = Some f → fieldKey f "email" ≠ VStr "test@email.com") →
  users d !! newId e = None →
  Server.test e req d
  = (Some {| status := 200;
             payload := Obj [("message", VStr "Test user saved!")] |},
     withUser (newId e) (testUserFields e) d).
Proof.
  intros Hunused Hfresh. unfold Server.test.
  rewrite save_ok; [done|done|done|].
  unfold firstDuplicate. cbn -[construct].
  rewrite keyTaken_unused; [done|]. intros i f Hf. exact (Hunused i f Hf).
Qed.

Section TestRoute.
Context {crypto : Crypto}.

(** C2, at [GET /test]: on a database without a user of the email
    test@email.com, the handler stores a user whose password field is the
    text 123456 as written in the handler, which no call of [bcrypt.hash]
    returns; [signup] stores the hash. *)
Theorem test_route_stores_plaintext (e : env) (req : request) (d : db) :
  (∀ i f, users d !! i = Some f → fieldKey f "email" ≠ VStr "test@email.com") →
  users d !! newId e = None →
  users (Server.test e req d).2 !! newId e = Some (testUserFields e)
  ∧ testUserFields e !! "password" = Some (VStr "123456")
  ∧ (∀ s rounds salt, bcrypt_hash s rounds salt ≠ "123456")
  ∧ (∀ username email hashed,
       newUserFields e username email hashed !! "password"
       = Some (VStr hashed)).
Proof.
  intros Hunused Hfresh. rewrite test_saves by done.
  split; [apply lookup_insert_eq|]. split; [reflexivity|]. split.
  - intros s rounds salt Heq.
    pose proof (bcrypt_hash_length s rounds salt) as Hlen.
    rewrite Heq in Hlen. discriminate Hlen.
  - reflexivity.
Qed.
End TestRoute.

Lemma test_route_stores_plaintext_witness :
  users (Server.test Sample.env0 (Sample.json_body []) Sample.emptyDb).2
    !! 1%N
  = Some (testUserFields Sample.env0).
Proof.
  refine (proj1 (test_route_stores_plaintext (crypto := Sample.crypto)
                   Sample.env0 (Sample.json_body []) Sample.emptyDb _ _)).
  - intros i f Hf. unfold Sample.emptyDb in Hf. simpl in Hf.
    by rewrite lookup_empty in Hf.
  - reflexivity.
Defined.

(** * Further properties of the handlers *)

(** ** Login and signup *)

Section UserHandlers.
Context {crypto : Crypto}.

Lemma login_reads (e : env) (req : request) (d : db) :
  (UserController.login e req d).2 = d
  ∧ (UserControllerDoc.login e req d).2 = d.
Proof.
  split.
  - unfold UserController.login.
    destruct (validationErrors req); run_handler; [|done].
    destruct (selectOne _ _ _) as [u|]; [|done].
    destruct (prop (body req) "password"); try done.
    destruct (prop u.2 "password"); try done.
    destruct (bcrypt_compare _ _); [|done]. cbn.
    destruct (JWT_SECRET e) as [secret|]; [|done].
    by destruct (String.eqb secret "").
  - unfold UserControllerDoc.login. run_handler.
    destruct (selectOne _ _ _) as [u|]; [|done].
    destruct (prop (body req) "password"); try done.
    destruct (prop u.2 "password"); try done.
    destruct (bcrypt_compare _ _); [|done]. cbn.
    destruct (JWT_SECRET e) as [secret|]; [|done].
    by destruct (String.eqb secret "").
Qed.

(** [login] reads: whatever the request and the outcome, the database is
    as it was, in both user controllers. *)
Theorem login_leaves_database (e : env) (req : request) (d : db) :
  (UserController.login e req d).2 = d
  ∧ (UserControllerDoc.login e req d).2 = d.
Proof. apply login_reads. Qed.

(** A login with the email of a stored user, a password that
    [bcrypt.compare] accepts and a signing secret in the environment that
    is not the empty string is answered with status 200 and a token signed
    over the [_id] of that user with a validity of 3600 seconds. *)
Theorem login_issues_token
    (e : env) (req : request) (d : db) (u : document) (p h secret : string) :
  selectOne "email" (prop (body req) "email") (users d) = Some u →
  prop (body req) "password" = VStr p →
  prop u.2 "password" = VStr h →
  bcrypt_compare p h = true →
  JWT_SECRET e = Some secret →
  secret ≠ "" →
  UserControllerDoc.login e req d
  = (loggedIn (jwt_sign (VId u.1) secret (now e) 3600), d)
  ∧ (validationErrors req = [] →
     UserController.login e req d
     = (loggedIn (jwt_sign (VId u.1) secret (now e) 3600), d)).
Proof.
  intros Hu Hp Hh Hcmp Hsecret Hne. split.
  - unfold UserControllerDoc.login. run_handler.
    rewrite Hu, Hp, Hh, Hcmp. cbn.
    by rewrite Hsecret, (nonempty_eqb secret Hne).
  - intros Hv. unfold UserController.login. rewrite Hv. run_handler.
    rewrite Hu, Hp, Hh, Hcmp. cbn.
    by rewrite Hsecret, (nonempty_eqb secret Hne).
Qed.

(** With no signing secret in the environment, the same login is answered
    with status 500. *)
Theorem login_without_secret
    (e : env) (req : request) (d : db) (u : document) (p h : string) :
  selectOne "email" (prop (body req) "email") (users d) = Some u →
  prop (body req) "password" = VStr p →
  prop u.2 "password" = VStr h →
  bcrypt_compare p h = true →
  JWT_SECRET e = None →
  status (UserControllerDoc.login e req d).1 = 500
  ∧ (validationErrors req = [] →
     status (UserController.login e req d).1 = 500).
Proof.
  intros Hu Hp Hh Hcmp Hsecret. split.
  - unfold UserControllerDoc.login. run_handler.
    rewrite Hu, Hp, Hh, Hcmp. cbn. by rewrite Hsecret.
  - intros Hv. unfold UserController.login. rewrite Hv. run_handler.
    rewrite Hu, Hp, Hh, Hcmp. cbn. by rewrite Hsecret.
Qed.

(** A login whose password is not a string (a body without [password],
    say) tells a stored email from an unknown one: the unknown email is
    answered with status 400, the stored one with status 500, as
    [bcrypt.compare] throws. *)
Theorem login_without_password_tells_users
    (e : env) (req : request) (d : db) :
  (∀ p, prop (body req) "password" ≠ VStr p) →
  (selectOne "email" (prop (body req) "email") (users d) = None →
   UserControllerDoc.login e req d = (invalidCredentials, d)
   ∧ (validationErrors req = [] →
      UserController.login e req d = (invalidCredentials, d)))
  ∧ (∀ u, selectOne "email" (prop (body req) "email") (users d) = Some u →
       status (UserControllerDoc.login e req d).1 = 500
       ∧ (validationErrors req = [] →
          status (UserController.login e req d).1 = 500)).
Proof.
  intros Hpw. split.
  - intros Hnone. split; [by apply login_doc_unknown_email|].
    intros Hv. by apply login_unknown_email.
  - intros u Hu. split.
    + unfold UserControllerDoc.login. run_handler. rewrite Hu.
      destruct (prop (body req) "password") as [| | | |p| |] eqn:Hp; try done.
      by destruct (Hpw p).
    + intros Hv. unfold UserController.login. rewrite Hv. run_handler.
      rewrite Hu.
      destruct (prop (body req) "password") as [| | | |p| |] eqn:Hp; try done.
      by destruct (Hpw p).
Qed.

(** A request that the validators reject gets status 400 with the list of
    their errors from [signup] and from [login], before any lookup; the
    database is as it was. *)
Theorem validation_errors_answered_400
    (e : env) (req : request) (d : db) :
  validationErrors req ≠ [] →
  UserController.signup e req d
  = ({| status := 400; payload := ObjErrors (validationErrors req) |}, d)
  ∧ UserController.login e req d
    = ({| status := 400; payload := ObjErrors (validationErrors req) |}, d).
Proof.
  intros Hv. unfold UserController.signup, UserController.login.
  destruct (validationErrors req) as [|err errs]; [done|].
  split; reflexivity.
Qed.
End UserHandlers.

Lemma user_defaults k :
  k ≠ "created_at" → k ≠ "updated_at" →
  ∀ p, p ∈ schema User → pdefaultNow p = true → pname p ≠ k.
Proof.
  intros Hc Hu p Hp Hd. cbn in Hp. unfold userSchema in Hp.
  repeat (apply elem_of_cons in Hp as [-> | Hp];
          [first [discriminate Hd | by cbn; congruence]|]);
    by apply elem_of_nil in Hp.
Qed.

Lemma constructed_password e username email hashed :
  (construct User e (newUserFields e username email hashed)).2 !! "password"
  = Some (VStr hashed).
Proof.
  unfold construct. cbn [snd].
  rewrite applyDefaults_lookup by by apply user_defaults.
  by apply strict_lookup.
Qed.

Section SignupStores.
Context {crypto : Crypto}.

Lemma signup_doc_cases e req d :
  UserControllerDoc.signup e req d
  = if isSome (selectOne "email" (prop (body req) "email") (users d))
    then (emailExistsDoc, d)
    else
      match prop (body req) "password" with
      | VStr pw =>
          let newUser :=
            construct User e
              (newUserFields e (prop (body req) "username")
                 (prop (body req) "email") (bcrypt_hash pw 10 (salt e))) in
          match save User newUser d with
          | Next _ d' => (created newUser.1, d')
          | Replied r d' => (r, d')
          | Thrown err d' =>
              ({| status := 500;
                  payload := Obj [("message", VStr (message err))] |}, d')
          end
      | _ =>
          ({| status := 500;
              payload := Obj [("message", VStr (message IllegalArguments))] |},
           d)
      end.
Proof.
  unfold UserControllerDoc.signup. run_handler.
  destruct (selectOne _ _ _) as [u|]; cbn [isSome]; [reflexivity|].
  destruct (prop (body req) "password") as [| | | |pw| |].
  1-4,6-7: reflexivity.
  cbv zeta. destruct (save User _ d); reflexivity.
Qed.

Lemma signup_cases e req d :
  validationErrors req = [] →
  UserController.signup e req d
  = if isSome (selectOne "email" (prop (body req) "email") (users d))
    then (emailExists, d)
    else
      match prop (body req) "password" with
      | VStr pw =>
          let newUser :=
            construct User e
              (newUserFields e (prop (body req) "username")
                 (prop (body req) "email") (bcrypt_hash pw 10 (salt e))) in
          match save User newUser d with
          | Next _ d' => (created newUser.1, d')
          | Replied r d' => (r, d')
          | Thrown err d' =>
              ({| status := 500;
                  payload := UserController.failure (message err) |}, d')
          end
      | _ =>
          ({| status := 500;
              payload := UserController.failure (message IllegalArguments) |},
           d)
      end.
Proof.
  intros Hv. unfold UserController.signup. rewrite Hv. run_handler.
  destruct (selectOne _ _ _) as [u|]; cbn [isSome]; [reflexivity|].
  destruct (prop (body req) "password") as [| | | |pw| |].
  1-4,6-7: reflexivity.
  cbv zeta. destruct (save User _ d); reflexivity.
Qed.

(** Whatever the request, [signup] either leaves the database as it was,
    with a status other than 201, or answers 201 and has inserted one user
    under the new ObjectId whose password field is the bcrypt hash of the
    password of the request; the employees are never touched. *)
Theorem signup_stores_only_hashes (e : env) (req : request) (d : db) :
  ((UserController.signup e req d).2 = d
   ∧ status (UserController.signup e req d).1 ≠ 201
   ∨ ∃ pw f,
       prop (body req) "password" = VStr pw
       ∧ users d !! newId e = None
       ∧ UserController.signup e req d
         = (created (newId e), withUser (newId e) f d)
       ∧ f !! "password" = Some (VStr (bcrypt_hash pw 10 (salt e))))
  ∧ ((UserControllerDoc.signup e req d).2 = d
     ∧ status (UserControllerDoc.signup e req d).1 ≠ 201
     ∨ ∃ pw f,
         prop (body req) "password" = VStr pw
         ∧ users d !! newId e = None
         ∧ UserControllerDoc.signup e req d
           = (created (newId e), withUser (newId e) f d)
         ∧ f !! "password" = Some (VStr (bcrypt_hash pw 10 (salt e)))).
Proof.
  split.
  - destruct (validationErrors req) as [|err errs] eqn:Hv.
    2: { left. unfold UserController.signup. rewrite Hv. by split. }
    rewrite (signup_cases e req d Hv).
    destruct (isSome _); [left; by split|].
    destruct (prop (body req) "password") as [| | | |pw| |].
    1-4,6-7: left; by split.
    cbv zeta.
    match goal with
    | |- context [save User ?doc d] =>
        destruct (save_cases User doc d) as [[err ->] | (-> & _ & Hfresh & _)]
    end; [left; by split|].
    right. eexists pw, _. split; [done|]. split; [exact Hfresh|].
    split; [reflexivity|]. apply constructed_password.
  - rewrite (signup_doc_cases e req d).
    destruct (isSome _); [left; by split|].
    destruct (prop (body req) "password") as [| | | |pw| |].
    1-4,6-7: left; by split.
    cbv zeta.
    match goal with
    | |- context [save User ?doc d] =>
        destruct (save_cases User doc d) as [[err ->] | (-> & _ & Hfresh & _)]
    end; [left; by split|].
    right. eexists pw, _. split; [done|]. split; [exact Hfresh|].
    split; [reflexivity|]. apply constructed_password.
Qed.

(** On a request that passes the validators, the two user controllers
    answer with the same status and leave the same database, for [signup]
    and for [login]. *)
Theorem user_controllers_agree (e : env) (req : request) (d : db) :
  validationErrors req = [] →
  status (UserController.signup e req d).1
  = status (UserControllerDoc.signup e req d).1
  ∧ (UserController.signup e req d).2 = (UserControllerDoc.signup e req d).2
  ∧ status (UserController.login e req d).1
    = status (UserControllerDoc.login e req d).1
  ∧ (UserController.login e req d).2 = (UserControllerDoc.login e req d).2.
Proof.
  intros Hv.
  assert (status (UserController.signup e req d).1
          = status (UserControllerDoc.signup e req d).1
          ∧ (UserController.signup e req d).2
            = (UserControllerDoc.signup e req d).2) as [Hs Hd].
  { rewrite (signup_cases e req d Hv), (signup_doc_cases e req d).
    destruct (isSome _); [by split|].
    destruct (prop (body req) "password") as [| | | |pw| |].
    1-4,6-7: by split.
    cbv zeta. destruct (save User _ d); by split. }
  split; [exact Hs|]. split; [exact Hd|].
  destruct (login_reads e req d) as [-> ->]. split; [|done].
  unfold UserController.login, UserControllerDoc.login.
  rewrite Hv. run_handler.
  destruct (selectOne _ _ _) as [u|]; [|done].
  destruct (prop (body req) "password"); try done.
  destruct (prop u.2 "password"); try done.
  destruct (bcrypt_compare _ _); [|done]. cbn.
  destruct (JWT_SECRET e) as [secret|]; [|done].
  by destruct (String.eqb secret "").
Qed.
End SignupStores.

Lemma selectOne_unique k v (c : gmap N object) i o :
  c !! i = Some o →
  fieldKey o k = filterValue v →
  (∀ j g, c !! j = Some g → fieldKey g k = filterValue v → j = i) →
  selectOne k v c = Some (i, o).
Proof.
  intros Hi Hk Honly.
  destruct (selectOne_found k v c i o Hi Hk) as [[j g] Hsel].
  rewrite Hsel. apply selectOne_Some in Hsel as [Hj Hg]. cbn in Hj, Hg.
  assert (j = i) as -> by by eapply Honly.
  rewrite Hi in Hj. by injection Hj as ->.
Qed.

Section SignupLogin.
Context {crypto : Crypto}.

(** After a signup that goes through, a login with the same email and
    password is answered with status 200 and a token signed over the
    ObjectId of the new user, provided [bcrypt.compare] accepts the
    password against its hash and a signing secret that is not the empty
    string is set.  Both user controllers. *)
Theorem login_after_signup
    (e e' : env) (req req' : request) (d : db) (name mail pw secret : string) :
  prop (body req) "username" = VStr name →
  prop (body req) "email" = VStr mail →
  prop (body req) "password" = VStr pw →
  name ≠ "" → mail ≠ "" →
  (∀ i f, users d !! i = Some f → fieldKey f "email" ≠ VStr mail) →
  users d !! newId e = None →
  prop (body req') "email" = VStr mail →
  prop (body req') "password" = VStr pw →
  bcrypt_compare pw (bcrypt_hash pw 10 (salt e)) = true →
  JWT_SECRET e' = Some secret →
  secret ≠ "" →
  UserControllerDoc.login e' req' (UserControllerDoc.signup e req d).2
  = (loggedIn (jwt_sign (VId (newId e)) secret (now e') 3600),
     (UserControllerDoc.signup e req d).2)
  ∧ (validationErrors req = [] → validationErrors req' = [] →
     UserController.login e' req' (UserController.signup e req d).2
     = (loggedIn (jwt_sign (VId (newId e)) secret (now e') 3600),
        (UserController.signup e req d).2)).
Proof.
  intros Hn Hm Hp Hname Hmail Hunused Hfresh Hm' Hp' Hcmp Hsecret Hset.
  set (fields := newUserFields e (VStr name) (VStr mail)
                   (bcrypt_hash pw 10 (salt e))).
  assert (selectOne "email" (prop (body req') "email")
            (users (withUser (newId e) fields d))
          = Some (newId e, fields)) as Hsel.
  { rewrite Hm'. apply selectOne_unique.
    - apply lookup_insert_eq.
    - reflexivity.
    - intros j g Hj Hg. cbn [users withUser] in Hj.
      destruct (decide (j = newId e)) as [->|Hne]; [done|].
      rewrite lookup_insert_ne in Hj by done.
      by destruct (Hunused j g Hj). }
  split.
  - rewrite (signup_doc_fresh e req d name mail pw) by done. cbn [snd].
    unfold UserControllerDoc.login. run_handler. fold fields.
    rewrite Hsel, Hp'. cbn [snd fst].
    replace (prop fields "password")
      with (VStr (bcrypt_hash pw 10 (salt e))) by reflexivity.
    rewrite Hcmp. cbn. by rewrite Hsecret, (nonempty_eqb secret Hset).
  - intros Hv Hv'.
    rewrite (signup_fresh e req d name mail pw) by done. cbn [snd].
    unfold UserController.login. rewrite Hv'. run_handler. fold fields.
    rewrite Hsel, Hp'. cbn [snd fst].
    replace (prop fields "password")
      with (VStr (bcrypt_hash pw 10 (salt e))) by reflexivity.
    rewrite Hcmp. cbn. by rewrite Hsecret, (nonempty_eqb secret Hset).
Qed.
End SignupLogin.

(** ** The unique index on the email *)

Lemma insert_uniqueEmails M (c : gmap N object) i o :
  requiredUnique "email" SString ∈ schema M →
  firstDuplicate M c i o = None →
  uniqueEmails c → uniqueEmails (<[i := o]> c).
Proof.
  intros Hpath Hdup Hc.
  assert (∀ j g, c !! j = Some g → j ≠ i →
                 fieldKey g "email" ≠ fieldKey o "email") as Hfree.
  { intros j g Hj Hne Hk.
    destruct (firstDuplicate_Some M c i o (requiredUnique "email" SString))
      as [q Hq]; [done|done| |congruence].
    by exists j, g. }
  intros j k f g Hj Hk Heq.
  destruct (decide (j = i)) as [->|Hji], (decide (k = i)) as [->|Hki];
    [done| | |].
  - rewrite lookup_insert_eq in Hj. rewrite lookup_insert_ne in Hk by done.
    injection Hj as <-. by destruct (Hfree k g Hk Hki).
  - rewrite lookup_insert_eq in Hk. rewrite lookup_insert_ne in Hj by done.
    injection Hk as <-. by destruct (Hfree j f Hj Hji).
  - rewrite lookup_insert_ne in Hj, Hk by done. by eapply Hc.
Qed.

Lemma delete_uniqueEmails (c : gmap N object) i :
  uniqueEmails c → uniqueEmails (delete i c).
Proof.
  intros Hc j k f g Hj Hk.
  apply lookup_delete_Some in Hj as [_ Hj].
  apply lookup_delete_Some in Hk as [_ Hk]. by eapply Hc.
Qed.

Lemma employeeWrite_unique d d' :
  employeeWrite d d' →
  uniqueEmails (employees d) → uniqueEmails (employees d').
Proof.
  intros [-> | [(i & o & -> & Hdup) | (i & ->)]] Hc; [done| |].
  - apply (insert_uniqueEmails Employee); [|done|done].
    cbn. by repeat constructor.
  - by apply delete_uniqueEmails.
Qed.

Lemma employeeWrite_users d d' : employeeWrite d d' → users d' = users d.
Proof. by intros [-> | [(i & o & -> & _) | (i & ->)]]. Qed.

Lemma save_writes doc d :
  match save Employee doc d with
  | Next _ d' | Replied _ d' | Thrown _ d' => employeeWrite d d'
  end.
Proof.
  destruct (save_cases Employee doc d)
    as [[err ->] | (-> & _ & _ & Hdup)]; [by left|].
  right; left. by exists doc.1, doc.2.
Qed.

Lemma createEmployee_writes e req d :
  employeeWrite d (EmployeeController.createEmployee e req d).2.
Proof.
  rewrite createEmployee_cases.
  destruct (negb _); [by left|]. destruct (isSome _); [by left|]. cbv zeta.
  match goal with
  | |- context [save Employee ?doc d] =>
      pose proof (save_writes doc d) as Hsave;
      by destruct (save Employee doc d)
  end.
Qed.

Lemma createEmployee_doc_writes e req d :
  employeeWrite d (EmployeeControllerDoc.createEmployee e req d).2.
Proof.
  rewrite createEmployee_doc_cases. cbv zeta.
  match goal with
  | |- context [save Employee ?doc d] =>
      pose proof (save_writes doc d) as Hsave;
      by destruct (save Employee doc d)
  end.
Qed.

Lemma findByIdAndUpdate_writes id upd d :
  match findByIdAndUpdate Employee id upd d with
  | Next _ d' | Replied _ d' | Thrown _ d' => employeeWrite d d'
  end.
Proof.
  destruct (findByIdAndUpdate_cases Employee id upd d)
    as [[err ->] | [-> | (s & o & f & _ & _ & Hf & Hdup & ->)]];
    [by left | by left |].
  right; left. by eexists o, _.
Qed.

Lemma findByIdAndDelete_writes id d :
  match findByIdAndDelete Employee id d with
  | Next _ d' | Replied _ d' | Thrown _ d' => employeeWrite d d'
  end.
Proof.
  unfold findByIdAndDelete. run_handler.
  assert (∀ o : N,
            match
              match employees d !! o with
              | Some f =>
                  Next (Some (o, f))
                    (withCollection Employee (delete o (employees d)) d)
              | None => Next None d
              end
            with
            | Next _ d' | Replied _ d' | Thrown _ d' => employeeWrite d d'
            end) as Hstep.
  { intros o. destruct (employees d !! o) as [f|]; [|by left].
    right; right. by exists o. }
  destruct id as [| | | |str| |o]; try by left.
  - destruct (parseObjectId str) as [o|]; [apply Hstep | by left].
  - apply Hstep.
Qed.

Lemma updateEmployee_writes e req d :
  employeeWrite d (EmployeeController.updateEmployee e req d).2.
Proof.
  unfold EmployeeController.updateEmployee, tryCatch.
  unfold mbind, handler_bind, when, reply, mret, handler_ret.
  match goal with
  | |- context [findByIdAndUpdate Employee ?id ?upd d] =>
      pose proof (findByIdAndUpdate_writes id upd d) as Hstep;
      destruct (findByIdAndUpdate Employee id upd d) as [[u|] d'| |]
  end; done.
Qed.

Lemma updateEmployee_doc_writes e req d :
  employeeWrite d (EmployeeControllerDoc.updateEmployee e req d).2.
Proof.
  unfold EmployeeControllerDoc.updateEmployee, tryCatch.
  unfold mbind, handler_bind, when, reply, mret, handler_ret.
  match goal with
  | |- context [findByIdAndUpdate Employee ?id ?upd d] =>
      pose proof (findByIdAndUpdate_writes id upd d) as Hstep;
      destruct (findByIdAndUpdate Employee id upd d) as [[u|] d'| |]
  end; done.
Qed.

Lemma deleteEmployee_writes e req d :
  employeeWrite d (EmployeeController.deleteEmployee e req d).2.
Proof.
  unfold EmployeeController.deleteEmployee, tryCatch.
  unfold mbind, handler_bind, when, reply, mret, handler_ret.
  match goal with
  | |- context [findByIdAndDelete Employee ?id d] =>
      pose proof (findByIdAndDelete_writes id d) as Hstep;
      destruct (findByIdAndDelete Employee id d) as [[u|] d'| |]
  end; done.
Qed.

Lemma deleteEmployee_doc_writes e req d :
  employeeWrite d (EmployeeControllerDoc.deleteEmployee e req d).2.
Proof.
  unfold EmployeeControllerDoc.deleteEmployee, tryCatch.
  unfold mbind, handler_bind, when, reply, mret, handler_ret.
  match goal with
  | |- context [findByIdAndDelete Employee ?id d] =>
      pose proof (findByIdAndDelete_writes id d) as Hstep;
      destruct (findByIdAndDelete Employee id d) as [[u|] d'| |]
  end; done.
Qed.

(** The handlers that write employees keep the emails of the employees
    unique: create, update and delete of both employee controllers. *)
Theorem employee_emails_stay_unique (e : env) (req : request) (d : db) :
  uniqueEmails (employees d) →
  uniqueEmails (employees (EmployeeController.createEmployee e req d).2)
  ∧ uniqueEmails (employees (EmployeeController.updateEmployee e req d).2)
  ∧ uniqueEmails (employees (EmployeeController.deleteEmployee e req d).2)
  ∧ uniqueEmails (employees (EmployeeControllerDoc.createEmployee e req d).2)
  ∧ uniqueEmails (employees (EmployeeControllerDoc.updateEmployee e req d).2)
  ∧ uniqueEmails (employees (EmployeeControllerDoc.deleteEmployee e req d).2).
Proof.
  intros Hd.
  split; [|split; [|split; [|split; [|split]]]].
  - exact (employeeWrite_unique d _ (createEmployee_writes e req d) Hd).
  - exact (employeeWrite_unique d _ (updateEmployee_writes e req d) Hd).
  - exact (employeeWrite_unique d _ (deleteEmployee_writes e req d) Hd).
  - exact (employeeWrite_unique d _ (createEmployee_doc_writes e req d) Hd).
  - exact (employeeWrite_unique d _ (updateEmployee_doc_writes e req d) Hd).
  - exact (employeeWrite_unique d _ (deleteEmployee_doc_writes e req d) Hd).
Qed.

(** No employee handler touches the users. *)
Theorem employee_handlers_leave_users (e : env) (req : request) (d : db) :
  users (EmployeeController.createEmployee e req d).2 = users d
  ∧ users (EmployeeController.updateEmployee e req d).2 = users d
  ∧ users (EmployeeController.deleteEmployee e req d).2 = users d
  ∧ users (EmployeeControllerDoc.createEmployee e req d).2 = users d
  ∧ users (EmployeeControllerDoc.updateEmployee e req d).2 = users d
  ∧ users (EmployeeControllerDoc.deleteEmployee e req d).2 = users d.
Proof.
  split; [|split; [|split; [|split; [|split]]]].
  - exact (employeeWrite_users d _ (createEmployee_writes e req d)).
  - exact (employeeWrite_users d _ (updateEmployee_writes e req d)).
  - exact (employeeWrite_users d _ (deleteEmployee_writes e req d)).
  - exact (employeeWrite_users d _ (createEmployee_doc_writes e req d)).
  - exact (employeeWrite_users d _ (updateEmployee_doc_writes e req d)).
  - exact (employeeWrite_users d _ (deleteEmployee_doc_writes e req d)).
Qed.

Lemma userWrite_unique d d' :
  userWrite d d' → uniqueEmails (users d) → uniqueEmails (users d').
Proof.
  intros [-> | (i & o & -> & Hdup)] Hc; [done|].
  apply (insert_uniqueEmails User); [|done|done].
  cbn. by repeat constructor.
Qed.

Lemma userWrite_employees d d' : userWrite d d' → employees d' = employees d.
Proof. by intros [-> | (i & o & -> & _)]. Qed.

Lemma save_user_writes doc d :
  match save User doc d with
  | Next _ d' | Replied _ d' | Thrown _ d' => userWrite d d'
  end.
Proof.
  destruct (save_cases User doc d) as [[err ->] | (-> & _ & _ & Hdup)];
    [by left|].
  right. by exists doc.1, doc.2.
Qed.

Lemma test_writes e req d : userWrite d (Server.test e req d).2.
Proof.
  unfold Server.test.
  match goal with
  | |- context [save User ?doc d] =>
      pose proof (save_user_writes doc d) as Hsave;
      by destruct (save User doc d)
  end.
Qed.

Section UserWrites.
Context {crypto : Crypto}.

Lemma signup_doc_writes e req d :
  userWrite d (UserControllerDoc.signup e req d).2.
Proof.
  rewrite signup_doc_cases. destruct (isSome _); [by left|].
  destruct (prop (body req) "password") as [| | | |pw| |].
  1-4,6-7: by left.
  cbv zeta.
  match goal with
  | |- context [save User ?doc d] =>
      pose proof (save_user_writes doc d) as Hsave;
      by destruct (save User doc d)
  end.
Qed.

Lemma signup_writes e req d : userWrite d (UserController.signup e req d).2.
Proof.
  destruct (validationErrors req) as [|err errs] eqn:Hv.
  2: { left. unfold UserController.signup. by rewrite Hv. }
  rewrite signup_cases by done. destruct (isSome _); [by left|].
  destruct (prop (body req) "password") as [| | | |pw| |].
  1-4,6-7: by left.
  cbv zeta.
  match goal with
  | |- context [save User ?doc d] =>
      pose proof (save_user_writes doc d) as Hsave;
      by destruct (save User doc d)
  end.
Qed.

(** The handlers that write users keep the emails of the users unique and
    leave the employees as they were: [signup] of both user controllers and
    [GET /test]. *)
Theorem user_emails_stay_unique (e : env) (req : request) (d : db) :
  (uniqueEmails (users d) →
   uniqueEmails (users (UserController.signup e req d).2)
   ∧ uniqueEmails (users (UserControllerDoc.signup e req d).2)
   ∧ uniqueEmails (users (Server.test e req d).2))
  ∧ employees (UserController.signup e req d).2 = employees d
  ∧ employees (UserControllerDoc.signup e req d).2 = employees d
  ∧ employees (Server.test e req d).2 = employees d.
Proof.
  split; [|split; [|split]].
  - intros Hd. split; [|split].
    + exact (userWrite_unique d _ (signup_writes e req d) Hd).
    + exact (userWrite_unique d _ (signup_doc_writes e req d) Hd).
    + exact (userWrite_unique d _ (test_writes e req d) Hd).
  - exact (userWrite_employees d _ (signup_writes e req d)).
  - exact (userWrite_employees d _ (signup_doc_writes e req d)).
  - exact (userWrite_employees d _ (test_writes e req d)).
Qed.
End UserWrites.

(** ** Reading employees *)

Lemma elem_of_select_all (c : gmap N object) i o :
  (i, o) ∈ select (λ _, true) c ↔ c !! i = Some o.
Proof. rewrite elem_of_select. tauto. Qed.

Lemma NoDup_select P (c : gmap N object) : NoDup (select P c).
Proof. unfold select. apply NoDup_filter, NoDup_map_to_list. Qed.

(** [getAllEmployees] answers with status 200 and every stored employee,
    each once, in both employee controllers; the database is as it was. *)
Theorem getAllEmployees_lists_every_employee
    (e : env) (req : request) (d : db) :
  ∃ ds,
    EmployeeController.getAllEmployees e req d = (listed ds, d)
    ∧ EmployeeControllerDoc.getAllEmployees e req d = (listed ds, d)
    ∧ NoDup ds
    ∧ ∀ i o, (i, o) ∈ ds ↔ employees d !! i = Some o.
Proof.
  exists (select (λ _, true) (employees d)).
  split; [reflexivity|]. split; [reflexivity|].
  split; [apply NoDup_select|]. apply elem_of_select_all.
Qed.

Lemma getEmployeeById_found e req d s o f :
  params req !! "eid" = Some s → parseObjectId s = Some o →
  employees d !! o = Some f →
  EmployeeController.getEmployeeById e req d = (found (o, f), d).
Proof.
  intros Hs Ho Hd. unfold EmployeeController.getEmployeeById, param.
  rewrite Hs. run_handler. rewrite Ho. cbn. rewrite Hd. reflexivity.
Qed.

Lemma getEmployeeById_doc_found e req d s o f :
  params req !! "eid" = Some s → parseObjectId s = Some o →
  employees d !! o = Some f →
  EmployeeControllerDoc.getEmployeeById e req d = (found (o, f), d).
Proof.
  intros Hs Ho Hd. unfold EmployeeControllerDoc.getEmployeeById, param.
  rewrite Hs. run_handler. rewrite Ho. cbn. rewrite Hd. reflexivity.
Qed.

(** [getEmployeeById] answers an identifier that is the ObjectId of a
    stored employee with status 200 and that employee, and an identifier
    that is not an ObjectId with status 500; both employee controllers, the
    database as it was. *)
Theorem getEmployeeById_found_or_malformed
    (e : env) (req : request) (d : db) (s : string) :
  params req !! "eid" = Some s →
  (∀ o f, parseObjectId s = Some o → employees d !! o = Some f →
     EmployeeController.getEmployeeById e req d = (found (o, f), d)
     ∧ EmployeeControllerDoc.getEmployeeById e req d = (found (o, f), d))
  ∧ (parseObjectId s = None →
     status (EmployeeController.getEmployeeById e req d).1 = 500
     ∧ (EmployeeController.getEmployeeById e req d).2 = d
     ∧ status (EmployeeControllerDoc.getEmployeeById e req d).1 = 500
     ∧ (EmployeeControllerDoc.getEmployeeById e req d).2 = d).
Proof.
  intros Hs. split.
  - intros o f Ho Hf. split.
    + by eapply getEmployeeById_found.
    + by eapply getEmployeeById_doc_found.
  - intros Hbad.
    unfold EmployeeController.getEmployeeById,
      EmployeeControllerDoc.getEmployeeById, param.
    rewrite Hs. run_handler. rewrite Hbad. done.
Qed.

Section SearchReads.
Context {regex : RegexEngine}.

Lemma searchFilter_empty req :
  supplied req "department" = None → supplied req "position" = None →
  EmployeeController.searchFilter req = ∅.
Proof.
  intros Hd Hp. apply map_eq. intros k.
  rewrite searchFilter_lookup, lookup_empty, Hd, Hp.
  by repeat case_decide.
Qed.

(** A search without a department text and without a position text (each
    absent or empty) is answered as [getAllEmployees] is. *)
Theorem search_without_filters_lists_all
    (e : env) (req : request) (d : db) :
  supplied req "department" = None →
  supplied req "position" = None →
  EmployeeController.searchEmployees e req d
  = EmployeeController.getAllEmployees e req d.
Proof.
  intros Hd Hp.
  unfold EmployeeController.searchEmployees,
    EmployeeController.getAllEmployees, findRegex.
  rewrite (searchFilter_empty req Hd Hp).
  unfold firstRejected. rewrite map_to_list_empty. cbn [fmap list_fmap List.find].
  run_handler. reflexivity.
Qed.

(** A search with a department or position text that the regular
    expression engine rejects is answered with status 500. *)
Theorem search_rejected_pattern_500
    (e : env) (req : request) (d : db) (k text : string) :
  k = "department" ∨ k = "position" →
  supplied req k = Some text →
  regexCompile text = None →
  status (EmployeeController.searchEmployees e req d).1 = 500
  ∧ (EmployeeController.searchEmployees e req d).2 = d.
Proof.
  intros Hk Hsup Hbad.
  unfold EmployeeController.searchEmployees, findRegex.
  destruct (find_one_true
              (λ text, negb (isSome (regexCompile text)))
              (snd <$> map_to_list (EmployeeController.searchFilter req))
              text) as [bad Hfind].
  - apply list_elem_of_fmap. exists (k, text). split; [done|].
    apply elem_of_map_to_list. rewrite searchFilter_lookup.
    destruct Hk as [-> | ->]; [by rewrite decide_False, decide_True|].
    by rewrite decide_True.
  - by rewrite Hbad.
  - unfold firstRejected. rewrite Hfind. done.
Qed.

(** The handlers that read employees leave the database as it was,
    whatever the request: list, read by identifier and search. *)
Theorem employee_reads_leave_database (e : env) (req : request) (d : db) :
  (EmployeeController.getAllEmployees e req d).2 = d
  ∧ (EmployeeController.getEmployeeById e req d).2 = d
  ∧ (EmployeeController.searchEmployees e req d).2 = d
  ∧ (EmployeeControllerDoc.getAllEmployees e req d).2 = d
  ∧ (EmployeeControllerDoc.getEmployeeById e req d).2 = d.
Proof.
  split; [reflexivity|].
  assert (∀ id, match findById Employee id d with
                | Next _ d' | Replied _ d' | Thrown _ d' => d' = d
                end) as HfindDoc.
  { intros id. unfold findById. run_handler.
    destruct id as [| | | |s| |o]; try done.
    by destruct (parseObjectId s). }
  split; [|split; [|split; [reflexivity|]]].
  - unfold EmployeeController.getEmployeeById, tryCatch.
    unfold mbind, handler_bind, reply.
    pose proof (HfindDoc (param (params req) "eid")) as Hfind.
    by destruct (findById Employee _ d) as [[u|] d'| |].
  - unfold EmployeeController.searchEmployees, findRegex.
    by destruct (firstRejected _).
  - unfold EmployeeControllerDoc.getEmployeeById, tryCatch.
    unfold mbind, handler_bind, reply.
    specialize (HfindDoc (param (params req) "eid")).
    by destruct (findById Employee _ d) as [[u|] d'| |].
Qed.
End SearchReads.

(** ** Creating employees *)

(** A creation whose required fields have the declared types and are
    truthy, whose email no employee has and whose new ObjectId is free is
    answered with status 201 and stores one document under the new
    ObjectId: the five texts and the salary as given in the body, a date of
    joining and both timestamps at the time of the request; every field of
    the stored document is a path of the Employee schema, so that the image
    path of an uploaded file is not stored. *)
Theorem create_stores_employee (e : env) (req : request) (d : db) :
  typedBody (body req) →
  allTruthy (body req) = true →
  selectOne "email" (prop (body req) "email") (employees d) = None →
  employees d !! newId e = None →
  ∃ fields,
    EmployeeController.createEmployee e req d
    = (employeeCreated (newId e, fields), withEmployee (newId e) fields d)
    ∧ (∀ k, k ∈ textFields → fields !! k = Some (prop (body req) k))
    ∧ fields !! "salary" = Some (prop (body req) "salary")
    ∧ is_Some (fields !! "date_of_joining")
    ∧ fields !! "created_at" = Some (VDate (now e))
    ∧ fields !! "updated_at" = Some (VDate (now e))
    ∧ (∀ k, is_Some (fields !! k) → hasPath Employee k = true)
    ∧ fields !! "profileImageUrl" = None.
Proof.
  intros _ Hall Hnone Hfresh.
  exists (construct Employee e
            (EmployeeController.newEmployeeFields e req)).2.
  split; [by apply createEmployee_stores|].
  split; [|split; [|split; [|split; [|split; [|split]]]]].
  - intros k Hk. apply constructed_required; [done|].
    by apply textFields_required.
  - apply constructed_required; [done|].
    unfold requiredFields. by repeat constructor.
  - eexists. apply constructed_required; [done|].
    unfold requiredFields. by repeat constructor.
  - by apply construct_keeps.
  - by apply construct_keeps.
  - intros k. apply construct_paths.
  - apply constructed_image.
Qed.

(** After such a creation, [getEmployeeById] with the new identifier is
    answered with status 200 and the stored document, which has the texts
    and the salary of the body. *)
Theorem get_after_create
    (e e' : env) (req req' : request) (d : db) (s : string) :
  typedBody (body req) →
  allTruthy (body req) = true →
  selectOne "email" (prop (body req) "email") (employees d) = None →
  employees d !! newId e = None →
  params req' !! "eid" = Some s →
  parseObjectId s = Some (newId e) →
  ∃ fields,
    status (EmployeeController.createEmployee e req d).1 = 201
    ∧ EmployeeController.getEmployeeById e' req'
        (EmployeeController.createEmployee e req d).2
      = (found (newId e, fields),
         (EmployeeController.createEmployee e req d).2)
    ∧ (∀ k, k ∈ textFields → fields !! k = Some (prop (body req) k))
    ∧ fields !! "salary" = Some (prop (body req) "salary").
Proof.
  intros _ Hall Hnone Hfresh Hs Ho.
  exists (construct Employee e
            (EmployeeController.newEmployeeFields e req)).2.
  rewrite (createEmployee_stores e req d Hall Hnone Hfresh).
  split; [reflexivity|]. split; [|split].
  - apply (getEmployeeById_found e' req' _ s (newId e)); [done|done|].
    apply lookup_insert_eq.
  - intros k Hk. apply constructed_required; [done|].
    by apply textFields_required.
  - apply constructed_required; [done|].
    unfold requiredFields. by repeat constructor.
Qed.

(** ** Updating employees *)

Lemma employeeField_updated M o (f upd : object) d o' k :
  employees d !! o = Some f →
  employeeField (withEmployee o (strict M upd ∪ f) d) o' k
  = if decide (o = o')
    then match upd !! k with
         | Some v =>
             if decide (hasPath M k = true ∧ v ≠ VUndefined) then Some v
             else employeeField d o' k
         | None => employeeField d o' k
         end
    else employeeField d o' k.
Proof.
  intros Hf. unfold employeeField, withEmployee. cbn [employees].
  rewrite lookup_insert. case_decide as Ho; [|done]. subst o'.
  cbn [mbind option_bind]. rewrite merged_lookup, Hf. cbn [mbind option_bind].
  done.
Qed.

(** For a body of scalar fields: an update never adds or removes an
    employee, and leaves every field that the body does not carry as it was
    in every document, the timestamp [updated_at] apart; an update answered
    with status 200 has set [updated_at] of its target to the time of the
    request, whatever the body says, and left the other documents as they
    were.  Both employee controllers. *)
Theorem update_touches_given_fields (e : env) (req : request) (d : db) :
  (dom (employees (EmployeeController.updateEmployee e req d).2)
   = dom (employees d)
   ∧ (∀ o k,
        body req !! k = None → k ≠ "updated_at" →
        employeeField (EmployeeController.updateEmployee e req d).2 o k
        = employeeField d o k)
   ∧ (status (EmployeeController.updateEmployee e req d).1 = 200 →
      ∃ s o,
        params req !! "eid" = Some s ∧ parseObjectId s = Some o
        ∧ employeeField (EmployeeController.updateEmployee e req d).2 o
            "updated_at" = Some (VDate (now e))
        ∧ ∀ o', o' ≠ o →
            employees (EmployeeController.updateEmployee e req d).2 !! o'
            = employees d !! o'))
  ∧ (dom (employees (EmployeeControllerDoc.updateEmployee e req d).2)
     = dom (employees d)
     ∧ (∀ o k,
          body req !! k = None → k ≠ "updated_at" →
          employeeField (EmployeeControllerDoc.updateEmployee e req d).2 o k
          = employeeField d o k)
     ∧ (status (EmployeeControllerDoc.updateEmployee e req d).1 = 200 →
        ∃ s o,
          params req !! "eid" = Some s ∧ parseObjectId s = Some o
          ∧ employeeField (EmployeeControllerDoc.updateEmployee e req d).2 o
              "updated_at" = Some (VDate (now e))
          ∧ ∀ o', o' ≠ o →
              employees (EmployeeControllerDoc.updateEmployee e req d).2 !! o'
              = employees d !! o')).
Proof.
  split.
  - destruct (updateEmployee_cases e req d)
      as [[Hsame Hstatus] | (s & t & f & Hs & Ht & Hf & _ & _ & ->)].
    + rewrite Hsame. split; [done|]. split; [done|]. by intros H200.
    + cbn [fst snd]. split; [|split].
      * cbn [employees withEmployee]. by apply dom_insert_lookup_L.
      * intros o k Hbody Hu.
        rewrite (employeeField_updated Employee) by done.
        case_decide; [|done].
        destruct (decide (k = "profileImageUrl")) as [-> | Himg].
        -- destruct (EmployeeController.updatedData e req !! _); [|done].
           rewrite decide_False; [done|]. by intros [? _].
        -- by rewrite updatedData_other, Hbody.
      * intros _. exists s, t. split; [done|]. split; [done|]. split.
        -- rewrite (employeeField_updated Employee) by done.
           rewrite decide_True by done.
           rewrite updatedData_updated_at. by rewrite decide_True.
        -- intros o' Hne. cbn [employees withEmployee].
           by rewrite lookup_insert_ne.
  - destruct (updateEmployee_doc_cases e req d)
      as [[Hsame Hstatus] | (s & t & f & Hs & Ht & Hf & ->)].
    + rewrite Hsame. split; [done|]. split; [done|]. by intros H200.
    + cbn [fst snd]. split; [|split].
      * cbn [employees withEmployee]. by apply dom_insert_lookup_L.
      * intros o k Hbody Hu.
        rewrite (employeeField_updated Employee) by done.
        case_decide; [|done].
        by rewrite lookup_insert_ne, Hbody.
      * intros _. exists s, t. split; [done|]. split; [done|]. split.
        -- rewrite (employeeField_updated Employee) by done.
           rewrite decide_True by done.
           rewrite lookup_insert_eq. by rewrite decide_True.
        -- intros o' Hne. cbn [employees withEmployee].
           by rewrite lookup_insert_ne.
Qed.

(** ** The test route, again *)

(** After a [GET /test] that stored its user, every further [GET /test]
    stores nothing and sends no response: [save] throws on the email that
    is taken, and the handler has no [try]. *)
Theorem test_route_only_once (e e' : env) (req req' : request) (d : db) :
  (∀ i f, users d !! i = Some f → fieldKey f "email" ≠ VStr "test@email.com") →
  users d !! newId e = None →
  Server.test e' req' (Server.test e req d).2
  = (None, (Server.test e req d).2).
Proof.
  intros Hunused Hfresh. rewrite (test_saves e req d Hunused Hfresh).
  cbn [snd]. unfold Server.test.
  match goal with
  | |- context [save User ?doc ?d'] =>
      destruct (save_cases User doc d')
        as [[err ->] | (_ & _ & Hid & Hdup)]
  end; [done|]. exfalso.
  destruct (firstDuplicate_Some User
              (users (withUser (newId e) (testUserFields e) d))
              (newId e') (testUserFields e')
              (requiredUnique "email" SString)) as [q Hq].
  - cbn. by repeat constructor.
  - done.
  - exists (newId e), (testUserFields e). split; [apply lookup_insert_eq|].
    split; [|reflexivity].
    intros Heq. cbn [collection User fst construct] in Hid.
    rewrite <- Heq in Hid. cbn [users withUser] in Hid.
    by rewrite lookup_insert_eq in Hid.
  - change (firstDuplicate User
              (users (withUser (newId e) (testUserFields e) d))
              (newId e') (testUserFields e') = None) in Hdup.
    congruence.
Qed.

(** ** Routes *)

(** The employee router with [DELETE /employees]: what reaches which
    handler.  A path [/employees/x] is an identifier lookup whatever [x]
    is; no handler sees an uploaded file; there is no route to delete by a
    path parameter. *)
Theorem employee_routes_table
    (c : employeeController) (e : env) (i : incoming) (x : string) :
  (inPath i = ["employees"] →
   (inMethod i = GET →
    dispatch (EmployeeRoutes.router c) e i
    = Some (ctlGetAllEmployees c e (toRequest false i ∅)))
   ∧ (inMethod i = POST →
      dispatch (EmployeeRoutes.router c) e i
      = Some (ctlCreateEmployee c e (toRequest false i ∅)))
   ∧ (inMethod i = PUT → dispatch (EmployeeRoutes.router c) e i = None)
   ∧ (inMethod i = DELETE →
      dispatch (EmployeeRoutes.router c) e i
      = Some (ctlDeleteEmployee c e (toRequest false i ∅))))
  ∧ (inPath i = ["employees"; x] →
     (inMethod i = GET →
      dispatch (EmployeeRoutes.router c) e i
      = Some (ctlGetEmployeeById c e (toRequest false i {[ "eid" := x ]})))
     ∧ (inMethod i = PUT →
        dispatch (EmployeeRoutes.router c) e i
        = Some (ctlUpdateEmployee c e (toRequest false i {[ "eid" := x ]})))
     ∧ (inMethod i = POST → dispatch (EmployeeRoutes.router c) e i = None)
     ∧ (inMethod i = DELETE → dispatch (EmployeeRoutes.router c) e i = None))
  ∧ file (toRequest false i ∅) = None
  ∧ file (toRequest false i {[ "eid" := x ]}) = None.
Proof.
  destruct i as [m p q b f]. cbn [inMethod inPath].
  repeat split; intros; subst; reflexivity.
Qed.

(** The employee router with uploads, whatever the case of the letters of
    the path: [/employees/search] is the search, [/employees/x] with any
    other segment [x] an identifier lookup; creation and update see the
    uploaded file, the other handlers do not; a delete needs the identifier
    in the path. *)
Theorem upload_routes_table
    (c : employeeController) (searchEmployees : endpoint)
    (e : env) (i : incoming) (a x : string) :
  lower a = "employees" →
  x ≠ "" →
  (inPath i = [a] →
   (inMethod i = GET →
    dispatch (EmployeeRoutesUpload.router c searchEmployees) e i
    = Some (ctlGetAllEmployees c e (toRequest false i ∅)))
   ∧ (inMethod i = POST →
      dispatch (EmployeeRoutesUpload.router c searchEmployees) e i
      = Some (ctlCreateEmployee c e (toRequest true i ∅)))
   ∧ (inMethod i = DELETE →
      dispatch (EmployeeRoutesUpload.router c searchEmployees) e i = None))
  ∧ (inPath i = [a; x] →
     (inMethod i = GET → lower x = "search" →
      dispatch (EmployeeRoutesUpload.router c searchEmployees) e i
      = Some (searchEmployees e (toRequest false i ∅)))
     ∧ (inMethod i = GET → lower x ≠ "search" →
        dispatch (EmployeeRoutesUpload.router c searchEmployees) e i
        = Some (ctlGetEmployeeById c e (toRequest false i {[ "eid" := x ]})))
     ∧ (inMethod i = PUT →
        dispatch (EmployeeRoutesUpload.router c searchEmployees) e i
        = Some (ctlUpdateEmployee c e (toRequest true i {[ "eid" := x ]})))
     ∧ (inMethod i = DELETE →
        dispatch (EmployeeRoutesUpload.router c searchEmployees) e i
        = Some (ctlDeleteEmployee c e (toRequest false i {[ "eid" := x ]}))))
  ∧ file (toRequest true i ∅) = inFile i
  ∧ file (toRequest false i ∅) = None.
Proof.
  intros Ha _. destruct i as [m p q b f]. cbn [inMethod inPath].
  assert (String.eqb (lower "employees") (lower a) = true) as Hemp.
  { rewrite Ha. reflexivity. }
  repeat split; intros; subst; cbn -[String.eqb lower];
    rewrite ?Hemp; try reflexivity.
  - assert (String.eqb (lower "search") (lower x) = true) as ->; [|done].
    match goal with H : lower x = _ |- _ => rewrite H end. reflexivity.
  - assert (String.eqb (lower "search") (lower x) = false) as ->; [|done].
    apply String.eqb_neq. intros Heq.
    match goal with H : lower x ≠ _ |- _ => apply H end. by rewrite <- Heq.
Qed.

Lemma upload_routes_table_witness :
  dispatch
    (EmployeeRoutesUpload.router withUploads
       (EmployeeController.searchEmployees (regex := Sample.regex)))
    Sample.env0
    {| inMethod := GET; inPath := ["Employees"; "SEARCH"];
       inQuery := ∅; inBody := ∅; inFile := None |}
  = Some (EmployeeController.searchEmployees (regex := Sample.regex)
            Sample.env0
            (toRequest false
               {| inMethod := GET; inPath := ["Employees"; "SEARCH"];
                  inQuery := ∅; inBody := ∅; inFile := None |} ∅)).
Proof.
  destruct (upload_routes_table withUploads
              (EmployeeController.searchEmployees (regex := Sample.regex))
              Sample.env0
              {| inMethod := GET; inPath := ["Employees"; "SEARCH"];
                 inQuery := ∅; inBody := ∅; inFile := None |}
              "Employees" "SEARCH" eq_refl) as (_ & Hsearch & _);
    [discriminate|].
  exact (proj1 (Hsearch eq_refl) eq_refl eq_refl).
Defined.

(** The user router handles [POST /signup] and [POST /login] and nothing
    else under these two paths; no validator runs ahead of the handlers. *)
Theorem user_routes_table
    (signup login : endpoint) (e : env) (i : incoming) :
  (inMethod i = POST → inPath i = ["signup"] →
   dispatch (UserRoutes.router signup login) e i
   = Some (signup e (toRequest false i ∅)))
  ∧ (inMethod i = POST → inPath i = ["login"] →
     dispatch (UserRoutes.router signup login) e i
     = Some (login e (toRequest false i ∅)))
  ∧ (inMethod i ≠ POST → dispatch (UserRoutes.router signup login) e i = None)
  ∧ validationErrors (toRequest false i ∅) = [].
Proof.
  destruct i as [m p q b f]. cbn [inMethod inPath].
  repeat split; intros; subst; try reflexivity.
  by destruct m.
Qed.

(** Through the router with uploads, [DELETE /employees/s] with the
    ObjectId of a stored employee removes that employee and is answered
    with status 200. *)
Theorem delete_route_with_parameter
    (e : env) (i : incoming) (d : db) (s : string) (o : N) (f : object)
    (searchEmployees : endpoint) :
  inMethod i = DELETE →
  inPath i = ["employees"; s] →
  parseObjectId s = Some o →
  employees d !! o = Some f →
  ∃ h,
    dispatch (EmployeeRoutesUpload.router withUploads searchEmployees) e i
    = Some h
    ∧ h d = (deleted200, withoutEmployee o d).
Proof.
  intros Hm Hp Ho Hf. destruct i as [m p q b fl]. cbn in Hm, Hp. subst m p.
  eexists. split; [reflexivity|].
  apply (deleteEmployee_present _ _ _ s o f); [|done|done].
  apply lookup_singleton_eq.
Qed.

Lemma getEmployeeById_malformed e req d s :
  params req !! "eid" = Some s → parseObjectId s = None →
  status (EmployeeController.getEmployeeById e req d).1 = 500
  ∧ (EmployeeController.getEmployeeById e req d).2 = d
  ∧ status (EmployeeControllerDoc.getEmployeeById e req d).1 = 500
  ∧ (EmployeeControllerDoc.getEmployeeById e req d).2 = d.
Proof.
  intros Hs Hbad.
  unfold EmployeeController.getEmployeeById,
    EmployeeControllerDoc.getEmployeeById, param.
  rewrite Hs. run_handler. rewrite Hbad. done.
Qed.

(** Through the router without a search route, [GET /employees/x] with an
    [x] that is not an ObjectId, [search] for one, is answered with status
    500 by both employee controllers. *)
Theorem lookup_route_malformed
    (e : env) (i : incoming) (d : db) (x : string) :
  inMethod i = GET →
  inPath i = ["employees"; x] →
  parseObjectId x = None →
  (∃ h, dispatch (EmployeeRoutes.router withUploads) e i = Some h
        ∧ status (h d).1 = 500 ∧ (h d).2 = d)
  ∧ (∃ h, dispatch (EmployeeRoutes.router withoutValidation) e i = Some h
          ∧ status (h d).1 = 500 ∧ (h d).2 = d).
Proof.
  intros Hm Hp Hbad. destruct i as [m p q b fl]. cbn in Hm, Hp. subst m p.
  set (i := {| inMethod := GET; inPath := ["employees"; x]; inQuery := q;
               inBody := b; inFile := fl |}).
  destruct (getEmployeeById_malformed e
              (toRequest false i (<["eid" := x]> ∅)) d x)
    as (H1 & H2 & H3 & H4); [apply lookup_insert_eq|done|].
  split.
  - exists (EmployeeController.getEmployeeById e
              (toRequest false i (<["eid" := x]> ∅))).
    split; [reflexivity|]. by split.
  - exists (EmployeeControllerDoc.getEmployeeById e
              (toRequest false i (<["eid" := x]> ∅))).
    split; [reflexivity|]. by split.
Qed.

(** ** The properties above at sample requests *)

Lemma login_issues_token_witness :
  UserControllerDoc.login (crypto := Sample.crypto) Sample.env0 Sample.alice
    Sample.dbAlice
  = (loggedIn "jwt.secret", Sample.dbAlice).
Proof.
  refine (proj1 (login_issues_token (crypto := Sample.crypto) Sample.env0
                   Sample.alice Sample.dbAlice (1%N, Sample.aliceFields)
                   "secret1" _ "secret" _ _ _ _ _ _));
    try (vm_compute; reflexivity).
  discriminate.
Defined.

Lemma login_without_secret_witness :
  status (UserControllerDoc.login (crypto := Sample.crypto)
            Sample.envNoSecret Sample.alice Sample.dbAlice).1 = 500.
Proof.
  refine (proj1 (login_without_secret (crypto := Sample.crypto)
                   Sample.envNoSecret Sample.alice Sample.dbAlice
                   (1%N, Sample.aliceFields) "secret1" _ _ _ _ _ _));
    vm_compute; reflexivity.
Defined.

Lemma login_without_password_tells_users_witness :
  UserControllerDoc.login (crypto := Sample.crypto) Sample.env0
    Sample.bobNoPassword Sample.dbAlice
  = (invalidCredentials, Sample.dbAlice)
  ∧ status (UserControllerDoc.login (crypto := Sample.crypto) Sample.env0
              Sample.aliceNoPassword Sample.dbAlice).1 = 500.
Proof.
  split.
  - refine (proj1 (proj1 (login_without_password_tells_users
                            (crypto := Sample.crypto) Sample.env0
                            Sample.bobNoPassword Sample.dbAlice _) _)).
    + intros p. vm_compute. discriminate.
    + vm_compute. reflexivity.
  - refine (proj1 (proj2 (login_without_password_tells_users
                            (crypto := Sample.crypto) Sample.env0
                            Sample.aliceNoPassword Sample.dbAlice _)
                     (1%N, Sample.aliceFields) _)).
    + intros p. vm_compute. discriminate.
    + vm_compute. reflexivity.
Defined.

Lemma validation_errors_answered_400_witness :
  UserController.signup (crypto := Sample.crypto) Sample.env0 Sample.rejected
    Sample.emptyDb
  = ({| status := 400; payload := ObjErrors ["Invalid email"] |},
     Sample.emptyDb).
Proof.
  refine (proj1 (validation_errors_answered_400 (crypto := Sample.crypto)
                   Sample.env0 Sample.rejected Sample.emptyDb _)).
  discriminate.
Defined.

Lemma user_controllers_agree_witness :
  status (UserController.signup (crypto := Sample.crypto) Sample.env0
            Sample.alice Sample.dbAlice).1
  = status (UserControllerDoc.signup (crypto := Sample.crypto) Sample.env0
              Sample.alice Sample.dbAlice).1.
Proof.
  exact (proj1 (user_controllers_agree (crypto := Sample.crypto) Sample.env0
                  Sample.alice Sample.dbAlice eq_refl)).
Defined.

Lemma login_after_signup_witness :
  UserControllerDoc.login (crypto := Sample.crypto) Sample.env2 Sample.alice
    (UserControllerDoc.signup (crypto := Sample.crypto) Sample.env0
       Sample.alice Sample.emptyDb).2
  = (loggedIn "jwt.secret",
     (UserControllerDoc.signup (crypto := Sample.crypto) Sample.env0
        Sample.alice Sample.emptyDb).2).
Proof.
  refine (proj1 (login_after_signup (crypto := Sample.crypto) Sample.env0
                   Sample.env2 Sample.alice Sample.alice Sample.emptyDb
                   "a" "a@x.com" "secret1" "secret" _ _ _ _ _ _ _ _ _ _ _ _)).
  1-3,7-11: vm_compute; reflexivity.
  1-2,4: discriminate.
  intros i f Hf. unfold Sample.emptyDb in Hf. simpl in Hf.
  by rewrite lookup_empty in Hf.
Defined.

Lemma employee_emails_stay_unique_witness :
  uniqueEmails
    (employees (EmployeeController.createEmployee Sample.env2 Sample.frank
                  Sample.dbCarol).2).
Proof.
  refine (proj1 (employee_emails_stay_unique Sample.env2 Sample.frank
                   Sample.dbCarol _)).
  apply uniqueEmails_singleton.
Defined.

Lemma user_emails_stay_unique_witness :
  uniqueEmails
    (users (UserControllerDoc.signup (crypto := Sample.crypto) Sample.env2
              Sample.bob Sample.dbAlice).2).
Proof.
  refine (proj1 (proj2 (proj1 (user_emails_stay_unique
                                 (crypto := Sample.crypto) Sample.env2
                                 Sample.bob Sample.dbAlice) _))).
  unfold Sample.dbAlice, withUser, Sample.emptyDb. cbn [users].
  rewrite insert_empty. apply uniqueEmails_singleton.
Defined.

Lemma getEmployeeById_found_or_malformed_witness :
  EmployeeController.getEmployeeById Sample.env0
    (Sample.withParam Sample.idCarol (Sample.json_body [])) Sample.dbCarol
  = (found (1%N, Sample.carolFields), Sample.dbCarol)
  ∧ status (EmployeeController.getEmployeeById Sample.env0
              (Sample.withParam "search" (Sample.json_body []))
              Sample.dbCarol).1 = 500.
Proof.
  split.
  - exact (proj1 (proj1 (getEmployeeById_found_or_malformed Sample.env0
                           (Sample.withParam Sample.idCarol
                              (Sample.json_body []))
                           Sample.dbCarol Sample.idCarol eq_refl)
                    1%N Sample.carolFields eq_refl eq_refl)).
  - exact (proj1 (proj2 (getEmployeeById_found_or_malformed Sample.env0
                           (Sample.withParam "search" (Sample.json_body []))
                           Sample.dbCarol "search" eq_refl) eq_refl)).
Defined.

Lemma search_without_filters_lists_all_witness :
  EmployeeController.searchEmployees (regex := Sample.regex) Sample.env0
    (Sample.withQuery "department" "" (Sample.json_body [])) Sample.dbTwo
  = EmployeeController.getAllEmployees Sample.env0
      (Sample.withQuery "department" "" (Sample.json_body [])) Sample.dbTwo.
Proof.
  apply (search_without_filters_lists_all (regex := Sample.regex));
    vm_compute; reflexivity.
Defined.

Lemma search_rejected_pattern_500_witness :
  status (EmployeeController.searchEmployees (regex := Sample.regex)
            Sample.env0
            (Sample.withQuery "department" "(" (Sample.json_body []))
            Sample.dbTwo).1 = 500.
Proof.
  refine (proj1 (search_rejected_pattern_500 (regex := Sample.regex)
                   Sample.env0
                   (Sample.withQuery "department" "(" (Sample.json_body []))
                   Sample.dbTwo "department" "(" _ _ _)).
  - by left.
  - vm_compute. reflexivity.
  - vm_compute. reflexivity.
Defined.

Lemma create_stores_employee_witness :
  status (EmployeeController.createEmployee Sample.env2 Sample.frank
            Sample.dbCarol).1 = 201.
Proof.
  destruct (create_stores_employee Sample.env2 Sample.frank Sample.dbCarol)
    as (fields & -> & _).
  - apply typedBody_frank.
  - vm_compute. reflexivity.
  - vm_compute. reflexivity.
  - vm_compute. reflexivity.
  - reflexivity.
Defined.

Lemma get_after_create_witness :
  status (EmployeeController.getEmployeeById Sample.env0
            (Sample.withParam Sample.idTwo (Sample.json_body []))
            (EmployeeController.createEmployee Sample.env2 Sample.frank
               Sample.dbCarol).2).1 = 200.
Proof.
  destruct (get_after_create Sample.env2 Sample.env0 Sample.frank
              (Sample.withParam Sample.idTwo (Sample.json_body []))
              Sample.dbCarol Sample.idTwo) as (fields & _ & -> & _).
  - apply typedBody_frank.
  - vm_compute. reflexivity.
  - vm_compute. reflexivity.
  - vm_compute. reflexivity.
  - reflexivity.
  - vm_compute. reflexivity.
  - reflexivity.
Defined.

Lemma test_route_only_once_witness :
  (Server.test Sample.env2 (Sample.json_body [])
     (Server.test Sample.env0 (Sample.json_body []) Sample.emptyDb).2).1
  = None.
Proof.
  rewrite (test_route_only_once Sample.env0 Sample.env2
             (Sample.json_body []) (Sample.json_body []) Sample.emptyDb).
  - reflexivity.
  - intros i f Hf. unfold Sample.emptyDb in Hf. simpl in Hf.
    by rewrite lookup_empty in Hf.
  - reflexivity.
Defined.

Lemma delete_route_with_parameter_witness :
  ∃ h,
    dispatch
      (EmployeeRoutesUpload.router withUploads
         (EmployeeController.searchEmployees (regex := Sample.regex)))
      Sample.env0
      {| inMethod := DELETE; inPath := ["employees"; Sample.idCarol];
         inQuery := ∅; inBody := ∅; inFile := None |}
    = Some h
    ∧ h Sample.dbCarol = (deleted200, withoutEmployee 1 Sample.dbCarol).
Proof.
  apply (delete_route_with_parameter Sample.env0 _ Sample.dbCarol
           Sample.idCarol 1 Sample.carolFields); reflexivity.
Defined.

Lemma lookup_route_malformed_witness :
  ∃ h,
    dispatch (EmployeeRoutes.router withoutValidation) Sample.env0
      {| inMethod := GET; inPath := ["employees"; "search"];
         inQuery := ∅; inBody := ∅; inFile := None |}
    = Some h
    ∧ status (h Sample.dbCarol).1 = 500
    ∧ (h Sample.dbCarol).2 = Sample.dbCarol.
Proof.
  apply (proj2 (lookup_route_malformed Sample.env0
                  {| inMethod := GET; inPath := ["employees"; "search"];
                     inQuery := ∅; inBody := ∅; inFile := None |}
                  Sample.dbCarol "search" eq_refl eq_refl eq_refl)).
Defined.
